(** * DNA sequence classifier: encoder, pipeline guards and model bootstrap

    A shallow embedding of [train_model.py] (class [DNASequenceClassifier])
    and [check_model.py] (the stand-alone bootstrap), together with the
    properties of the encoder, of the pipeline's state guards and of the
    bootstrap that the specification states. *)

From stdpp Require Import gmap strings list pretty.
From Stdlib Require Import Ascii ZArith NArith Lia.
From Stdlib Require OrderedTypeEx Sorted.

Local Open Scope Z_scope.

(** ** Python values *)

Module Py.

(** A [str] is a sequence of Unicode code points. *)
Abbreviation char := N.
Abbreviation str := (list N).

Definition chr (a : ascii) : char := N_of_ascii a.

(** A string literal of the source (ASCII only). *)
Definition lit (s : string) : str := map chr (String.list_ascii_of_string s).

(** [len(x)] *)
Definition len {A} (l : list A) : Z := Z.of_nat (length l).

(** [x[:n]]; a negative bound counts from the end. *)
Definition slice_to {A} (l : list A) (n : Z) : list A :=
  if bool_decide (0 <= n) then take (Z.to_nat n) l
  else take (Z.to_nat (len l + n)) l.

(** [x * n]; a bound below one gives the empty sequence. *)
Definition mul {A} (l : list A) (n : Z) : list A :=
  concat (replicate (Z.to_nat n) l).

(** The case tables of the interpreter for the code points above ASCII
    ([str.upper] maps one code point to one or more code points). They
    are not part of the repository: a parameter. *)
Class Unicode := upper_ext : char -> str.

Definition upper_ascii (c : char) : char :=
  if bool_decide (97 <= c <= 122)%N then (c - 32)%N else c.

Definition upper_char `{Unicode} (c : char) : str :=
  if bool_decide (c < 128)%N then [upper_ascii c] else upper_ext c.

(** [s.upper()] *)
Definition upper `{Unicode} (s : str) : str := concat (map upper_char s).

(** [str.upper] leaves an upper-cased string alone: every code point of
    an expansion is its own upper case. *)
Class UnicodeIdem `{Unicode} : Prop :=
  upper_ext_idem : forall c, (128 <= c)%N -> upper (upper_ext c) = upper_ext c.

(** A fragment of the case tables: the four code points above ASCII
    whose expansion holds one of the letters A, T, C, G, and the sharp s;
    any other code point is left as it is. *)
Definition upper_fragment : Unicode := fun c =>
  if bool_decide (c = 0x1E97)%N then [chr "T"; 0x308%N]
  else if bool_decide (c = 0x1E9A)%N then [chr "A"; 0x2BE%N]
  else if bool_decide (c = 0xFB05)%N then [chr "S"; chr "T"]
  else if bool_decide (c = 0xFB06)%N then [chr "S"; chr "T"]
  else if bool_decide (c = 0xDF)%N then [chr "S"; chr "S"]
  else [c].

End Py.

(** ** The part of numpy the scripts use *)

Module Np.

(** An array is kept as its shape and its nested-list view. *)
Record ndarray : Type := { shape : list Z; tolist : list (list Z) }.

(** [np.array(rows)] for a list of rows of one length: the empty list
    gives the one-dimensional array of shape [(0,)]. *)
Definition array (rows : list (list Z)) : ndarray :=
  {| shape := match rows with
              | [] => [0]
              | r :: _ => [Py.len rows; Py.len r]
              end;
     tolist := rows |}.

(** [np.expand_dims(a, axis=0)]: a batch of one sample. *)
Definition expand_dims (a : ndarray) : list ndarray := [a].

Section Argmax.
Context {A : Type} (ltb : A -> A -> bool).

Fixpoint argmax_from (best_i : nat) (best : A) (i : nat) (l : list A) : nat :=
  match l with
  | [] => best_i
  | x :: l' =>
      if ltb best x then argmax_from i x (S i) l'
      else argmax_from best_i best (S i) l'
  end.

(** [np.argmax(v)]: the first index of a maximum; none for an empty
    vector. *)
Definition argmax (l : list A) : option nat :=
  match l with
  | [] => None
  | x :: l' => Some (argmax_from 0%nat x 1%nat l')
  end.

End Argmax.

End Np.


(** ** [train_model.py]: the classifier object *)

Module Train.

Inductive exn : Type :=
  | ValueError (msg : string)
  | IndexError
  | NotFittedError
  | AttributeError (msg : string).

(** The deep-learning framework and the splitter: the type of (float)
    scores with the order [np.argmax] uses, the network objects (a value
    of [keras_model] is the content of a network at one moment), the
    network [build_model] assembles and compiles for an input shape (or
    the exception the layers raise for a shape they cannot take), the
    stratified split, [model.fit] with the callbacks and [verbose=1] of
    [train], inference on one sample and [model.evaluate]. External to
    the repository: parameters.

    [fit] trains the network object in place and acts on the outside
    while it runs, so it answers with three things: what happened, in
    order (a line of the progress output, or the network the
    [ModelCheckpoint] callback saved to its file); the network as the
    call left it; and the history or the exception raised. *)
Class Keras : Type := {
  prob : Type;
  prob_ltb : prob -> prob -> bool;
  keras_model : Type;
  history : Type;
  build_model : list Z -> exn + keras_model;
  train_test_split :
    list Np.ndarray -> list Z ->
    exn + (list Np.ndarray * list Np.ndarray * list Z * list Z);
  fit :
    keras_model -> list Np.ndarray -> list Z -> Z -> Z ->
    list Np.ndarray -> list Z ->
    list (string + keras_model) * keras_model * (exn + history);
  forward : keras_model -> Np.ndarray -> list prob;
  evaluate_net : keras_model -> list Np.ndarray -> list Z -> prob * prob
}.

(** [sklearn.preprocessing.LabelEncoder]: [classes_] exists once fitted. *)
Record LabelEncoder : Type := { classes_ : option (list string) }.

Record DNASequenceClassifier `{Keras} : Type := {
  sequence_length : Z;
  model : option keras_model;
  label_encoder : LabelEncoder;
  class_names : list string
}.

Definition __init__ `{Keras} (sequence_length : Z) : DNASequenceClassifier :=
  {| sequence_length := sequence_length;
     model := None;
     label_encoder := {| classes_ := None |};
     class_names := ["Human"; "Bacteria"; "Virus"; "Plant"] |}.

(** The default of the constructor's argument. *)
Definition default_sequence_length : Z := 1000.

(** *** The sequence encoder *)

Definition mapping : gmap Py.char (list Z) :=
  {[ Py.chr "A" := [1; 0; 0; 0];
     Py.chr "T" := [0; 1; 0; 0];
     Py.chr "C" := [0; 0; 1; 0];
     Py.chr "G" := [0; 0; 0; 1] ]}.

(** [base in 'ATCG'] for a one-character [base]. *)
Definition in_ATCG (base : Py.char) : bool :=
  bool_decide (base ∈ Py.lit "ATCG").

Definition encode_base (base : Py.char) : list Z :=
  match mapping !! base with
  | Some v => v
  | None => [0; 0; 0; 0]
  end.

(** The filtered and upper-cased sequence of the first step. *)
Definition clean `{Py.Unicode} (sequence : Py.str) : Py.str :=
  List.filter in_ATCG (Py.upper sequence).

(** The second step: pad with ['N'] or truncate to [L]. *)
Definition pad_or_truncate (L : Z) (sequence : Py.str) : Py.str :=
  if bool_decide (Py.len sequence < L)
  then sequence ++ Py.mul (Py.lit "N") (L - Py.len sequence)
  else Py.slice_to sequence L.

Definition one_hot_encode_sequence `{Py.Unicode} `{Keras}
    (self : DNASequenceClassifier) (sequence : Py.str) : Np.ndarray :=
  let sequence := clean sequence in
  let sequence := pad_or_truncate (sequence_length self) sequence in
  let encoded := map encode_base sequence in
  Np.array encoded.

(** *** Label encoding *)

(** [np.unique]: the sorted list of the distinct labels. *)
Fixpoint insert_unique (x : string) (l : list string) : list string :=
  match l with
  | [] => [x]
  | y :: l' =>
      match String.compare x y with
      | Lt => x :: l
      | Eq => l
      | Gt => y :: insert_unique x l'
      end
  end.

Definition np_unique (labels : list string) : list string :=
  foldr insert_unique [] labels.

Fixpoint index_of (x : string) (l : list string) : option nat :=
  match l with
  | [] => None
  | y :: l' => if bool_decide (x = y) then Some 0%nat else S <$> index_of x l'
  end.

(** [LabelEncoder.fit_transform(labels)]: the fitted encoder and the
    class index of every label. *)
Definition fit_transform (labels : list string) : LabelEncoder * list Z :=
  let classes := np_unique labels in
  ({| classes_ := Some classes |},
   map (fun l => Z.of_nat (default 0%nat (index_of l classes))) labels).

(** The four class names that are among the labels, in the order of
    [np.unique]. *)
Definition sorted_subset (b h p v : bool) : list string :=
  (if b then ["Bacteria"] else []) ++ (if h then ["Human"] else [])
  ++ (if p then ["Plant"] else []) ++ (if v then ["Virus"] else []).

(** *** Exceptions, effects and the state the methods run in *)

Record model_info : Type := {
  info_class_names : list string;
  info_sequence_length : Z;
  info_label_encoder_classes : list string
}.

(** What a method does to the outside: lines printed and files written. *)
Inductive effect `{Keras} : Type :=
  | PrintLine (line : string)
  | KerasSummary (m : keras_model)
  | KerasSave (m : keras_model) (path : string)
  | TfjsSave (m : keras_model) (path : string)
  | JsonDump (info : model_info) (path : string).

Record state `{Keras} : Type := {
  self : DNASequenceClassifier;
  effects : list effect
}.

Definition M `{Keras} (A : Type) : Type := state -> (exn + A) * state.

Definition ret `{Keras} {A} (a : A) : M A := fun st => (inr a, st).

Definition raise `{Keras} {A} (e : exn) : M A := fun st => (inl e, st).

Definition bind `{Keras} {A B} (c : M A) (k : A -> M B) : M B :=
  fun st =>
    match c st with
    | (inl e, st') => (inl e, st')
    | (inr a, st') => k a st'
    end.

Notation "'let!' x ':=' c 'in' k" := (bind c (fun x => k))
  (at level 10, x name, c at level 100, k at level 200).
Notation "'do!' c 'in' k" := (bind c (fun _ => k))
  (at level 10, c at level 100, k at level 200).

Definition get_self `{Keras} : M DNASequenceClassifier :=
  fun st => (inr (self st), st).

Definition set_self `{Keras} (s : DNASequenceClassifier) : M unit :=
  fun st => (inr tt, {| self := s; effects := effects st |}).

Definition emit `{Keras} (e : effect) : M unit :=
  fun st => (inr tt, {| self := self st; effects := effects st ++ [e] |}).

Definition lift `{Keras} {A} (r : exn + A) : M A := fun st => (r, st).

(** [l[i]] *)
Definition item {A} (l : list A) (i : nat) : exn + A :=
  match l !! i with
  | Some x => inr x
  | None => inl IndexError
  end.

(** *** Loading *)

(** [load_and_preprocess_data], from the rows [pd.read_excel] returned
    (the [sequence] and [label] columns). *)
Definition load_and_preprocess_data `{Py.Unicode} `{Keras}
    (df : list (Py.str * string)) : M (list Np.ndarray * list Z) :=
  do! emit (PrintLine "Loading dataset...") in
  let sequences := map fst df in
  let labels := map snd df in
  do! emit (PrintLine ("Loaded " +:+ pretty (Py.len sequences) +:+ " sequences")) in
  let! s := get_self in
  let X := map (one_hot_encode_sequence s) sequences in
  let '(enc, y) := fit_transform labels in
  do! set_self {| sequence_length := sequence_length s;
                  model := model s;
                  label_encoder := enc;
                  class_names := class_names s |} in
  ret (X, y).

(** *** Training *)

Definition with_model `{Keras} (s : DNASequenceClassifier) (m : keras_model)
    : DNASequenceClassifier :=
  {| sequence_length := sequence_length s;
     model := Some m;
     label_encoder := label_encoder s;
     class_names := class_names s |}.

(** The file the [ModelCheckpoint] callback of [train] writes. *)
Definition checkpoint_path : string := "best_model.h5".

(** What one event of a fit does to the outside. *)
Definition fit_effect `{Keras} (ev : string + keras_model) : effect :=
  match ev with
  | inl line => PrintLine line
  | inr m => KerasSave m checkpoint_path
  end.

Definition emit_all `{Keras} (es : list effect) : M unit :=
  fun st => (inr tt, {| self := self st; effects := effects st ++ es |}).

(** [train(X, y, epochs, batch_size)]: the split, the network built for
    the shape of the first training sample and stored in [self.model],
    then the fit of that network. The fit works on the object
    [self.model] refers to: what it printed and saved, and the network
    as it left it, stay when it raises. *)
Definition train `{Keras} (X : list Np.ndarray) (y : list Z)
    (epochs batch_size : Z) : M history :=
  let! split := lift (train_test_split X y) in
  let '(X_train, X_val, y_train, y_val) := split in
  let! first := lift (item X_train 0) in
  let! built := lift (build_model (Np.shape first)) in
  let! s := get_self in
  do! set_self (with_model s built) in
  do! emit (PrintLine "Model architecture:") in
  do! emit (KerasSummary built) in
  let '(events, m, result) :=
    fit built X_train y_train batch_size epochs X_val y_val in
  do! emit_all (map fit_effect events) in
  let! s := get_self in
  do! set_self (with_model s m) in
  lift result.

(** *** Evaluation, prediction and export *)

Definition evaluate `{Keras} (X : list Np.ndarray) (y : list Z) : M (prob * prob) :=
  let! s := get_self in
  match model s with
  | None => raise (ValueError "Model must be trained first")
  | Some m =>
      let '(loss, accuracy) := evaluate_net m X y in
      ret (loss, accuracy)
  end.

(** [model.predict(batch)]: one score vector per sample. *)
Definition keras_predict `{Keras} (m : keras_model) (batch : list Np.ndarray)
    : list (list prob) :=
  map (forward m) batch.

(** [np.argmax(v)]; numpy refuses an empty vector. *)
Definition np_argmax `{Keras} (v : list prob) : exn + nat :=
  match Np.argmax prob_ltb v with
  | Some i => inr i
  | None => inl (ValueError "attempt to get argmax of an empty sequence")
  end.

(** [label_encoder.inverse_transform([y])[0]] *)
Definition inverse_transform (enc : LabelEncoder) (y : nat) : exn + string :=
  match classes_ enc with
  | None => inl NotFittedError
  | Some classes =>
      match classes !! y with
      | Some c => inr c
      | None => inl (ValueError "y contains previously unseen labels")
      end
  end.

(** A [dict] with string keys keeps its keys in insertion order; storing
    under a key already present replaces the value where the key is. *)
Fixpoint dict_set {V} (k : string) (v : V) (d : list (string * V))
    : list (string * V) :=
  match d with
  | [] => [(k, v)]
  | (k', v') :: d' =>
      if bool_decide (k = k') then (k', v) :: d'
      else (k', v') :: dict_set k v d'
  end.

(** [{names[i]: float(p) for i, p in enumerate(probs)}], from index [i]
    with the entries [d] made so far. *)
Fixpoint probabilities_from {V} (names : list string) (i : nat)
    (probs : list V) (d : list (string * V)) : exn + list (string * V) :=
  match probs with
  | [] => inr d
  | p :: probs' =>
      match item names i with
      | inl e => inl e
      | inr name => probabilities_from names (S i) probs' (dict_set name p d)
      end
  end.

(** The dictionary [predict] returns. *)
Record prediction `{Keras} : Type := {
  class : string;
  confidence : prob;
  all_probabilities : list (string * prob)
}.

Definition predict `{Py.Unicode} `{Keras} (sequence : Py.str) : M prediction :=
  let! s := get_self in
  match model s with
  | None => raise (ValueError "Model must be trained first")
  | Some m =>
      let encoded_seq := one_hot_encode_sequence s sequence in
      let encoded_seq := Np.expand_dims encoded_seq in
      let predictions := keras_predict m encoded_seq in
      let! predictions0 := lift (item predictions 0) in
      let! predicted_class := lift (np_argmax predictions0) in
      let! confidence := lift (item predictions0 predicted_class) in
      let! cls := lift (inverse_transform (label_encoder s) predicted_class) in
      let! all := lift (probabilities_from (class_names s) 0 predictions0 []) in
      ret {| class := cls; confidence := confidence; all_probabilities := all |}
  end.

(** [label_encoder.classes_.tolist()] *)
Definition classes_tolist (enc : LabelEncoder) : exn + list string :=
  match classes_ enc with
  | Some classes => inr classes
  | None => inl (AttributeError "'LabelEncoder' object has no attribute 'classes_'")
  end.

Definition save_model `{Keras} (model_path : string) : M unit :=
  let! s := get_self in
  match model s with
  | None => raise (ValueError "No model to save")
  | Some m =>
      do! emit (KerasSave m "dna_classifier.h5") in
      do! emit (TfjsSave m model_path) in
      let! classes := lift (classes_tolist (label_encoder s)) in
      let model_info :=
        {| info_class_names := class_names s;
           info_sequence_length := sequence_length s;
           info_label_encoder_classes := classes |} in
      do! emit (JsonDump model_info (model_path +:+ "/model_info.json")) in
      emit (PrintLine ("Model saved to " +:+ model_path))
  end.

(** *** The rows of an encoded sequence *)

Definition basis_A : list Z := [1; 0; 0; 0].
Definition basis_T : list Z := [0; 1; 0; 0].
Definition basis_C : list Z := [0; 0; 1; 0].
Definition basis_G : list Z := [0; 0; 0; 1].
Definition zero_row : list Z := [0; 0; 0; 0].

Definition basis_rows : list (list Z) := [basis_A; basis_T; basis_C; basis_G].

(** A stand-in for the framework, for running the methods on concrete
    inputs: scores in thousandths, a network that answers every sample
    with the same score vector. *)
Definition keras_constant : Keras :=
  {| prob := Z;
     prob_ltb := Z.ltb;
     keras_model := list Z;
     history := unit;
     build_model := fun _ => inr [250; 250; 250; 250];
     train_test_split := fun X y => inr (X, X, y, y);
     fit := fun _ _ _ _ _ _ _ => ([], [700; 100; 150; 50], inr tt);
     forward := fun m _ => m;
     evaluate_net := fun _ _ _ => (0, 1000) |}.

(** A fresh instance with the default length, nothing done yet. *)
Definition fresh_state : @state keras_constant :=
  {| self := __init__ default_sequence_length; effects := [] |}.

(** The instance after loading a table of four rows, one per class, and
    training on it. *)
Definition trained_state : @state keras_constant :=
  let df := [(Py.lit "ACGTACGT", "Human"); (Py.lit "ttgaca", "Bacteria");
             (Py.lit "GGNNCC", "Virus"); (Py.lit "tataat", "Plant")] in
  let run :=
    let! data := @load_and_preprocess_data Py.upper_fragment keras_constant df in
    train (fst data) (snd data) 50 32 in
  snd (run fresh_state).

(** The order of the fitted classes: strings by their characters. *)
Definition string_lt (a b : string) : Prop := String.compare a b = Lt.

(** *** Sequences of method calls *)

(** One call of a method on the instance, whatever it returns. *)
Inductive call `{Py.Unicode} `{Keras} : state -> state -> Prop :=
  | call_load df st :
      call st (load_and_preprocess_data df st).2
  | call_train X y epochs batch_size st :
      call st (train X y epochs batch_size st).2
  | call_evaluate X y st :
      call st (evaluate X y st).2
  | call_predict sequence st :
      call st (predict sequence st).2
  | call_save_model model_path st :
      call st (save_model model_path st).2.

(** The state right after [DNASequenceClassifier(sequence_length=L)]. *)
Definition constructed `{Keras} (L : Z) : state :=
  {| self := __init__ L; effects := [] |}.

(** What any sequence of method calls can make of a new instance. *)
Definition reachable `{Py.Unicode} `{Keras} (L : Z) (st : state) : Prop :=
  rtc call (constructed L) st.

(** The effects that write a file. *)
Definition writes_file `{Keras} (e : effect) : bool :=
  match e with
  | PrintLine _ | KerasSummary _ => false
  | KerasSave _ _ | TfjsSave _ _ | JsonDump _ _ => true
  end.

(** What [save_model] adds to the outside when it gets as far as the
    metadata: the saved network, the export and the metadata file of one
    call, in this order. *)
Definition bundle `{Keras} (m : keras_model) (model_path : string)
    (info : model_info) : list effect :=
  [KerasSave m "dna_classifier.h5";
   TfjsSave m model_path;
   JsonDump info (model_path +:+ "/model_info.json")].

(** The instance after training on arrays made elsewhere, with no table
    loaded. *)
Definition trained_unloaded_state : @state keras_constant :=
  snd (@train keras_constant
         [Np.array [[1; 0; 0; 0]]; Np.array [[0; 1; 0; 0]]] [0; 1] 50 32
         fresh_state).

(** A table of four rows, one per class. *)
Definition four_rows : list (Py.str * string) :=
  [(Py.lit "ACGTACGT", "Human"); (Py.lit "ttgaca", "Bacteria");
   (Py.lit "GGNNCC", "Virus"); (Py.lit "tataat", "Plant")].

(** *** A stand-in with the checks of the splitter and of the layers *)

(** The number of samples of class [c] among the labels [y]. *)
Definition class_count (c : Z) (y : list Z) : nat :=
  length (filter (fun x => x = c) y).

(** A stand-in for [train_test_split(X, y, test_size=0.2, stratify=y)]:
    it refuses what the stratified splitter refuses (arrays of different
    lengths, an empty training part, a class with a single sample, fewer
    training or validation samples than classes), and then, where the
    splitter draws a shuffled stratified sample, takes the first
    [ceil(0.2 n)] samples for validation. *)
Definition split_head (X : list Np.ndarray) (y : list Z)
    : exn + (list Np.ndarray * list Np.ndarray * list Z * list Z) :=
  let classes := remove_dups y in
  let n_test := Z.to_nat ((Py.len y + 4) / 5) in
  let n_train := (length y - n_test)%nat in
  if bool_decide (length X <> length y)
  then inl (ValueError "Found input variables with inconsistent numbers of samples")
  else if bool_decide (n_train = 0%nat)
  then inl (ValueError "the resulting train set will be empty")
  else if bool_decide (Exists (fun c => (class_count c y < 2)%nat) classes)
  then inl (ValueError "The least populated class in y has only 1 member")
  else if bool_decide (n_train < length classes)%nat
  then inl (ValueError "The train_size should be greater or equal to the number of classes")
  else if bool_decide (n_test < length classes)%nat
  then inl (ValueError "The test_size should be greater or equal to the number of classes")
  else inr (drop n_test X, take n_test X, drop n_test y, take n_test y).

(** The positions the four [Conv1D] (kernels 10, 8, 6, 4) and
    [MaxPooling1D] (size 2) pairs of [build_model] leave of [L]. *)
Definition pooled_length (L : Z) : Z :=
  ((((L - 9) / 2 - 7) / 2 - 5) / 2 - 3) / 2.

(** A stand-in for [build_model]: the layers refuse a sample that is not
    a matrix or that is too short for the convolutions. *)
Definition build_checked (input_shape : list Z) : exn + list Z :=
  match input_shape with
  | [L; _] =>
      if bool_decide (1 <= pooled_length L) then inr [250; 250; 250; 250]
      else inl (ValueError "Negative dimension size caused by subtracting")
  | _ => inl (ValueError "Input 0 of layer conv1d is incompatible with the layer")
  end.

(** A stand-in for a framework with these checks, whose fit has the
    outcome [outcome] whatever it is given. *)
Definition keras_checked
    (outcome : list (string + list Z) * list Z * (exn + unit)) : Keras :=
  {| prob := Z;
     prob_ltb := Z.ltb;
     keras_model := list Z;
     history := unit;
     build_model := build_checked;
     train_test_split := split_head;
     fit := fun _ _ _ _ _ _ _ => outcome;
     forward := fun m _ => m;
     evaluate_net := fun _ _ _ => (1386, 250) |}.

(** A fit that raises in its second epoch, after the first epoch
    improved the network and saved a checkpoint. *)
Definition keras_failing_fit : Keras :=
  keras_checked
    ([inl "Epoch 1/50"; inr [400; 200; 250; 150]; inl "Epoch 2/50"],
     [550; 150; 200; 100],
     inl (ValueError "fit failed")).

(** A fit of two epochs that returns, with a checkpoint after each. *)
Definition keras_fitting : Keras :=
  keras_checked
    ([inl "Epoch 1/50"; inr [400; 200; 250; 150];
      inl "Epoch 2/50"; inr [700; 100; 150; 50]],
     [700; 100; 150; 50],
     inr tt).

(** A table of twenty rows, five per class, and what
    [load_and_preprocess_data] makes of it on an instance for sequences
    of length 100. *)
Definition twenty_rows : list (Py.str * string) :=
  concat (replicate 5 four_rows).

Definition twenty_samples : list Np.ndarray :=
  map (@one_hot_encode_sequence Py.upper_fragment keras_failing_fit
         (__init__ 100))
      (map fst twenty_rows).

Definition twenty_labels : list Z := (fit_transform (map snd twenty_rows)).2.

(** An instance trained as [trained_state], whose network was then
    replaced from outside ([classifier.model = ...]) by one that answers
    with the scores [scores]. *)
Definition replaced_model_state (scores : list Z) : @state keras_constant :=
  {| self := with_model (self trained_state) scores;
     effects := effects trained_state |}.

End Train.

(** ** [check_model.py]: the bootstrap *)

Module CheckModel.

(** A regular file, by what the script observes of it: its size
    ([os.path.getsize]) and whether its content parses ([json.load]). *)
Record file : Type := { size : N; parses : bool }.

(** What is at a path: a regular file, or a directory, with the size
    [os.path.getsize] answers for it. *)
Inductive entry : Type :=
  | File (f : file)
  | Dir (dir_size : N).

(** What [tfjs.converters.save_keras_model] writes into the target
    directory for the placeholder network: the manifest [model.json] and
    a weights file. External to the repository: a parameter. *)
Class Tfjs : Type := {
  manifest_out : file;
  weights_name : string;
  weights_out : file
}.

(** The exporter's contract: a manifest that parses and a weights file
    that is not empty. *)
Class TfjsOk `{Tfjs} : Prop := {
  manifest_out_parses : parses manifest_out = true;
  weights_out_nonempty : (0 < size weights_out)%N;
  weights_name_fresh : weights_name <> "model.json"
}.

Inductive exn : Type :=
  | FileExistsError (path : string)
  | FileNotFoundError (path : string)
  | IsADirectoryError (path : string)
  | JSONDecodeError.

(** A printed line; the line of the handler carries the exception. *)
Inductive output : Type :=
  | Out (line : string)
  | OutError (prefix : string) (e : exn).

#[global] Instance exn_eq_dec : EqDecision exn.
Proof. solve_decision. Defined.

#[global] Instance output_eq_dec : EqDecision output.
Proof. solve_decision. Defined.

(** What is at every path that exists, regular file or directory, and
    what has been printed. The directory [models] itself need not be
    listed: [os.makedirs] makes it when it is absent, and nothing the
    script does tells the two cases apart. *)
Record world : Type := {
  files : gmap string entry;
  stdout : list output
}.

Definition print (o : output) (w : world) : world :=
  {| files := files w; stdout := stdout w ++ [o] |}.

Definition write (path : string) (f : file) (w : world) : world :=
  {| files := <[path := File f]> (files w); stdout := stdout w |}.

(** [os.path.join(a, b)] for a relative [b]. *)
Definition path_join (a b : string) : string :=
  match last (String.list_ascii_of_string a) with
  | None => b
  | Some c => if bool_decide (c = "/"%char) then a +:+ b else a +:+ "/" +:+ b
  end.

(** [os.path.exists(path)]: true of a regular file and of a directory. *)
Definition path_exists (path : string) (w : world) : bool :=
  bool_decide (is_Some (files w !! path)).

(** [os.path.isfile(path)] and [os.path.isdir(path)] *)
Definition is_file (path : string) (w : world) : bool :=
  match files w !! path with
  | Some (File _) => true
  | _ => false
  end.

Definition is_dir (path : string) (w : world) : bool :=
  match files w !! path with
  | Some (Dir _) => true
  | _ => false
  end.

(** [os.path.getsize] of what is at a path. *)
Definition getsize (e : entry) : N :=
  match e with
  | File f => size f
  | Dir n => n
  end.

(** [os.makedirs(path, exist_ok=True)] for a single-level [path]: refused
    when a regular file has that name. *)
Definition makedirs (path : string) (w : world) : exn + world :=
  match files w !! path with
  | Some (File _) => inl (FileExistsError path)
  | _ => inr w
  end.

(** Opening [path] for writing and storing [f]: refused when a directory
    has that name. *)
Definition create_file (path : string) (f : file) (w : world) : exn + world :=
  match files w !! path with
  | Some (Dir _) => inl (IsADirectoryError path)
  | _ => inr (write path f w)
  end.

(** [create_simple_model]: the exporter writes the weights file, then
    the manifest; an exception of the exporter leaves the function
    before the closing line. The result is the exception that escapes,
    if any, and the world left. *)
Definition create_simple_model `{Tfjs} (w : world) : option exn * world :=
  match create_file (path_join "models/" weights_name) weights_out w with
  | inl e => (Some e, w)
  | inr w =>
      match create_file (path_join "models/" "model.json") manifest_out w with
      | inl e => (Some e, w)
      | inr w =>
          (None, print (Out "Simple model created and saved successfully") w)
      end
  end.

(** The body of the [try]: the manifest is opened and parsed, the weights
    path is looked at. *)
Definition validate (model_json_path weights_path : string) (w : world)
    : exn + world :=
  match files w !! model_json_path with
  | None => inl (FileNotFoundError model_json_path)
  | Some (Dir _) => inl (IsADirectoryError model_json_path)
  | Some (File f) =>
      if parses f then
        let w := print (Out "Model JSON is valid") w in
        match files w !! weights_path with
        | Some e =>
            let file_size := getsize e in
            inr (print (Out ("Weights file exists, size: " +:+ pretty file_size
                             +:+ " bytes")) w)
        | None => inr (print (Out "Weights file missing") w)
        end
      else inl JSONDecodeError
  end.

(** The result is the exception that escapes, if any, and the world the
    run leaves. The first call of [create_simple_model] is outside the
    [try], the second is in the handler: an exception of either leaves
    the function. *)
Definition check_and_create_model `{Tfjs} (w : world) : option exn * world :=
  let model_dir := "models" in
  match makedirs model_dir w with
  | inl e => (Some e, w)
  | inr w =>
      let model_json_path := path_join model_dir "model.json" in
      let weights_path := path_join model_dir "weights.bin" in
      let created :=
        if negb (path_exists model_json_path w)
        then create_simple_model (print (Out "Creating model files...") w)
        else (None, print (Out "Model files already exist") w) in
      match created with
      | (Some e, w) => (Some e, w)
      | (None, w) =>
          match validate model_json_path weights_path w with
          | inr w => (None, w)
          | inl e =>
              let w := print (OutError "Error validating model files: " e) w in
              create_simple_model w
          end
      end
  end.

(** The two checks the specification names, on the world. *)
Definition manifest_ok (w : world) : bool :=
  match files w !! "models/model.json" with
  | Some (File f) => parses f
  | _ => false
  end.

Definition weights_ok (path : string) (w : world) : bool :=
  match files w !! path with
  | Some (File f) => bool_decide (0 < size f)%N
  | _ => false
  end.

(** The run regenerated the bundle: the exporter's closing line has been
    printed. *)
Definition regenerated (before after : world) : bool :=
  bool_decide (Out "Simple model created and saved successfully"
               ∈ drop (length (stdout before)) (stdout after)).

(** The world a call of the exporter that raises nothing leaves. *)
Definition exported `{Tfjs} (w : world) : world :=
  print (Out "Simple model created and saved successfully")
    (write (path_join "models/" "model.json") manifest_out
       (write (path_join "models/" weights_name) weights_out w)).

(** An exporter that fulfils its contract and names the weights file as
    the script expects it. *)
Definition tfjs_weights_bin : Tfjs :=
  {| manifest_out := {| size := 2048; parses := true |};
     weights_name := "weights.bin";
     weights_out := {| size := 2083332; parses := false |} |}.

(** An exporter that fulfils its contract with a shard name of its own. *)
Definition tfjs_shard : Tfjs :=
  {| manifest_out := {| size := 2048; parses := true |};
     weights_name := "group1-shard1of1.bin";
     weights_out := {| size := 2083332; parses := false |} |}.

Definition empty_world : world := {| files := ∅; stdout := [] |}.



(** A directory with a manifest that parses and no weights file. *)
Definition missing_weights_world : world :=
  {| files := {[ "models/model.json" := File {| size := 2048; parses := true |} ]};
     stdout := [] |}.

Definition stray_world : world :=
  {| files := {[ "models/model.json" := File {| size := 12; parses := false |};
                 "models/notes.txt" := File {| size := 40; parses := false |} ]};
     stdout := [Out "started"] |}.

(** A directory [models] in which [model.json] is itself a directory. *)
Definition manifest_directory_world : world :=
  {| files := {[ "models" := Dir 4096;
                 "models/model.json" := Dir 4096 ]};
     stdout := [] |}.

End CheckModel.

(** * Properties *)

Import Train.

(** ** Python sequences *)

Section PySequences.
Context {A : Type}.
Implicit Types (l : list A) (n : Z).

Lemma mul_singleton (x : A) n : Py.mul [x] n = replicate (Z.to_nat n) x.
Proof.
  unfold Py.mul. induction (Z.to_nat n) as [|k IH]; simpl; [done|].
  by rewrite IH.
Qed.

Lemma slice_to_nonneg l n : 0 <= n -> Py.slice_to l n = take (Z.to_nat n) l.
Proof. intros Hn. unfold Py.slice_to. by rewrite bool_decide_eq_true_2. Qed.

Lemma list_map_fmap {B} (f : A -> B) l : map f l = f <$> l.
Proof. induction l as [|x l IH]; simpl; [done|]. by rewrite IH. Qed.

End PySequences.

Lemma lit_N : Py.lit "N" = [Py.chr "N"].
Proof. reflexivity. Qed.

(** ** The encoder *)

Section Encoder.
Context `{Py.Unicode}.

(** Padding or truncation, for a target length that is not negative, in
    one formula. *)
Lemma pad_or_truncate_take (L : Z) (s : Py.str) :
  0 <= L ->
  pad_or_truncate L s
  = take (Z.to_nat L) s ++ replicate (Z.to_nat L - length s)%nat (Py.chr "N").
Proof.
  intros HL. unfold pad_or_truncate, Py.len. case_bool_decide as Hlt.
  - rewrite lit_N, mul_singleton, take_ge by lia.
    do 2 f_equal. lia.
  - rewrite slice_to_nonneg by done.
    replace (Z.to_nat L - length s)%nat with 0%nat by lia.
    simpl. by rewrite app_nil_r.
Qed.

Lemma pad_or_truncate_length (L : Z) (s : Py.str) :
  0 <= L -> length (pad_or_truncate L s) = Z.to_nat L.
Proof.
  intros HL. rewrite pad_or_truncate_take by done.
  rewrite length_app, length_take, length_replicate. lia.
Qed.

Lemma mapping_lookup (base : Py.char) :
  mapping !! base =
    if bool_decide (base = Py.chr "A") then Some basis_A
    else if bool_decide (base = Py.chr "T") then Some basis_T
    else if bool_decide (base = Py.chr "C") then Some basis_C
    else if bool_decide (base = Py.chr "G") then Some basis_G
    else None.
Proof.
  unfold mapping.
  repeat (case_bool_decide; [subst; by simplify_map_eq|]).
  by simplify_map_eq.
Qed.

Lemma in_ATCG_iff (base : Py.char) :
  in_ATCG base = true <->
  base = Py.chr "A" \/ base = Py.chr "T" \/ base = Py.chr "C" \/ base = Py.chr "G".
Proof.
  unfold in_ATCG. rewrite bool_decide_eq_true.
  change (Py.lit "ATCG") with [Py.chr "A"; Py.chr "T"; Py.chr "C"; Py.chr "G"].
  rewrite !elem_of_cons, elem_of_nil. tauto.
Qed.

Lemma encode_base_in (base : Py.char) :
  in_ATCG base = true -> encode_base base ∈ basis_rows.
Proof.
  rewrite in_ATCG_iff. unfold encode_base, basis_rows. rewrite mapping_lookup.
  intros [-> | [-> | [-> | ->]]]; simpl; set_solver.
Qed.

Lemma encode_base_out (base : Py.char) :
  in_ATCG base = false -> encode_base base = zero_row.
Proof.
  intros Hout. unfold encode_base. rewrite mapping_lookup.
  repeat (case_bool_decide; [exfalso; subst; by vm_compute in Hout|]).
  done.
Qed.

Lemma zero_row_not_basis : zero_row ∉ basis_rows.
Proof.
  unfold basis_rows. rewrite !not_elem_of_cons.
  repeat split; [discriminate.. | apply not_elem_of_nil].
Qed.

Lemma encode_base_five (base : Py.char) :
  encode_base base ∈ basis_rows ++ [zero_row].
Proof.
  destruct (in_ATCG base) eqn:Hb.
  - apply elem_of_app. left. by apply encode_base_in.
  - rewrite encode_base_out by done. set_solver.
Qed.

Lemma encode_base_length (base : Py.char) : length (encode_base base) = 4%nat.
Proof.
  pose proof (encode_base_five base) as Hin.
  unfold basis_rows in Hin. simpl in Hin.
  rewrite !elem_of_cons, elem_of_nil in Hin.
  destruct Hin as [-> | [-> | [-> | [-> | [-> | []]]]]]; reflexivity.
Qed.

Lemma clean_all_bases (s : Py.str) (c : Py.char) :
  c ∈ clean s -> in_ATCG c = true.
Proof.
  unfold clean. rewrite list_elem_of_In, filter_In. by intros [_ ?].
Qed.

Section Rows.
Context `{Keras} (slf : DNASequenceClassifier) (s : Py.str).

Local Abbreviation L := (sequence_length slf).
Local Abbreviation out := (one_hot_encode_sequence slf s).

Lemma rows_unfold : Np.tolist out = map encode_base (pad_or_truncate L (clean s)).
Proof. reflexivity. Qed.

(** The rows are the encoded bases of the cleaned sequence, cut at [L],
    followed by the padding rows. *)
Lemma rows_normal_form :
  0 <= L ->
  Np.tolist out
  = (encode_base <$> take (Z.to_nat L) (clean s))
    ++ replicate (Z.to_nat L - length (clean s))%nat zero_row.
Proof.
  intros HL. rewrite rows_unfold, pad_or_truncate_take by done.
  by rewrite list_map_fmap, fmap_app, fmap_replicate, (encode_base_out (Py.chr "N")).
Qed.

Lemma rows_length : 0 <= L -> length (Np.tolist out) = Z.to_nat L.
Proof.
  intros HL. rewrite rows_unfold, length_map. by apply pad_or_truncate_length.
Qed.

Lemma rows_width : Forall (fun row => length row = 4%nat) (Np.tolist out).
Proof.
  rewrite rows_unfold, list_map_fmap. apply Forall_forall. intros row.
  rewrite list_elem_of_fmap. intros (c & -> & _).
  apply encode_base_length.
Qed.

Lemma rows_prefix (i : nat) :
  0 <= L -> (i < Z.to_nat L)%nat -> (i < length (clean s))%nat ->
  exists c, clean s !! i = Some c /\ in_ATCG c = true
            /\ Np.tolist out !! i = Some (encode_base c).
Proof.
  intros HL HiL Hik.
  destruct (lookup_lt_is_Some_2 (clean s) i Hik) as [c Hc].
  exists c. split; [done|]. split.
  - eapply clean_all_bases, list_elem_of_lookup_2, Hc.
  - rewrite rows_normal_form by done.
    rewrite lookup_app_l by (rewrite length_fmap, length_take; lia).
    by rewrite list_lookup_fmap, lookup_take_lt, Hc by lia.
Qed.

Lemma rows_padding (i : nat) :
  0 <= L -> (i < Z.to_nat L)%nat -> (length (clean s) <= i)%nat ->
  Np.tolist out !! i = Some zero_row.
Proof.
  intros HL HiL Hik. rewrite rows_normal_form by done.
  rewrite lookup_app_r by (rewrite length_fmap, length_take; lia).
  rewrite length_fmap, length_take.
  apply lookup_replicate. split; [done | lia].
Qed.

End Rows.

End Encoder.

(** *** Upper-casing *)

Section Upper.
Context `{Py.Unicode}.

Lemma upper_app (s1 s2 : Py.str) :
  Py.upper (s1 ++ s2) = Py.upper s1 ++ Py.upper s2.
Proof. unfold Py.upper. by rewrite map_app, concat_app. Qed.

Lemma upper_cons (c : Py.char) (s : Py.str) :
  Py.upper (c :: s) = Py.upper_char c ++ Py.upper s.
Proof. reflexivity. Qed.

Lemma upper_ascii_bound (c : Py.char) : (c < 128 -> Py.upper_ascii c < 128)%N.
Proof. unfold Py.upper_ascii. case_bool_decide; lia. Qed.

Lemma upper_ascii_idem (c : Py.char) :
  Py.upper_ascii (Py.upper_ascii c) = Py.upper_ascii c.
Proof. unfold Py.upper_ascii. repeat case_bool_decide; lia. Qed.

(** The four letters are their own upper case. *)
Lemma upper_char_base (c : Py.char) :
  in_ATCG c = true -> Py.upper_char c = [c].
Proof. rewrite in_ATCG_iff. intros [-> | [-> | [-> | ->]]]; reflexivity. Qed.

Lemma upper_bases (s : Py.str) :
  Forall (fun c => in_ATCG c = true) s -> Py.upper s = s.
Proof.
  induction 1 as [|c s Hc _ IH]; [done|].
  by rewrite upper_cons, upper_char_base, IH.
Qed.

Lemma clean_bases (s : Py.str) :
  Forall (fun c => in_ATCG c = true) s -> clean s = s.
Proof.
  intros Hs. unfold clean. rewrite upper_bases by done.
  induction Hs as [|c s Hc _ IH]; simpl; [done|]. by rewrite Hc, IH.
Qed.

Lemma clean_Forall (s : Py.str) : Forall (fun c => in_ATCG c = true) (clean s).
Proof. apply Forall_forall. intros c. apply clean_all_bases. Qed.

(** Cleaning a cleaned sequence changes nothing. *)
Lemma clean_clean (s : Py.str) : clean (clean s) = clean s.
Proof. apply clean_bases, clean_Forall. Qed.

(** With an idempotent case table, [upper] is idempotent on strings. *)
Lemma upper_upper `{!Py.UnicodeIdem} (s : Py.str) :
  Py.upper (Py.upper s) = Py.upper s.
Proof.
  induction s as [|c s IH]; [done|].
  rewrite upper_cons, upper_app, IH. f_equal.
  unfold Py.upper_char. case_bool_decide as Hc.
  - rewrite upper_cons. unfold Py.upper, Py.upper_char. simpl.
    rewrite bool_decide_eq_true_2 by by apply upper_ascii_bound.
    by rewrite upper_ascii_idem.
  - apply Py.upper_ext_idem. lia.
Qed.

End Upper.

(** The fragment of the case tables is idempotent. *)
Lemma upper_fragment_idem : @Py.UnicodeIdem Py.upper_fragment.
Proof.
  intros c Hc. unfold Py.upper_ext, Py.upper_fragment.
  repeat (case_bool_decide; [reflexivity|]).
  unfold Py.upper. simpl. unfold Py.upper_char, Py.upper_ext.
  rewrite bool_decide_eq_false_2 by lia.
  repeat (rewrite (bool_decide_eq_false_2 (c = _)) by done).
  reflexivity.
Qed.

(** *** The encoder's output *)

Section EncoderClaims.
Context `{Py.Unicode} `{Keras}.
Implicit Types (slf : DNASequenceClassifier) (s : Py.str) (i j : nat).

(** The encoder sees its input only through the cleaned sequence. *)
Lemma encode_clean_eq slf s1 s2 :
  clean s1 = clean s2 ->
  one_hot_encode_sequence slf s1 = one_hot_encode_sequence slf s2.
Proof. intros Heq. unfold one_hot_encode_sequence. by rewrite Heq. Qed.


(** C1 (amended): for every input string and every target length
    [L >= 0] the encoder returns exactly [L] rows of 4 entries each; the
    array is the [L] by 4 matrix when [L >= 1], and the empty
    one-dimensional array of shape [(0,)] when [L = 0]. *)
Theorem one_hot_encode_shape slf s :
  0 <= sequence_length slf ->
  Py.len (Np.tolist (one_hot_encode_sequence slf s)) = sequence_length slf
  /\ Forall (fun row => Py.len row = 4) (Np.tolist (one_hot_encode_sequence slf s))
  /\ (1 <= sequence_length slf ->
      Np.shape (one_hot_encode_sequence slf s) = [sequence_length slf; 4])
  /\ (sequence_length slf = 0 ->
      Np.shape (one_hot_encode_sequence slf s) = [0]).
Proof.
  intros HL.
  pose proof (rows_length slf s HL) as Hlen.
  pose proof (rows_width slf s) as Hwidth.
  assert (Hrows : Py.len (Np.tolist (one_hot_encode_sequence slf s))
                  = sequence_length slf) by (unfold Py.len; lia).
  split; [done|]. split.
  { eapply Forall_impl; [exact Hwidth|]. intros row Hrow. simpl in Hrow.
    unfold Py.len. by rewrite Hrow. }
  unfold one_hot_encode_sequence, Np.array in *. simpl in *.
  destruct (map encode_base _) as [|row rows] eqn:Hmap.
  - split; [|done]. intros HL1. simpl in Hlen. lia.
  - split; [|intros HL0; simpl in Hlen; lia].
    intros _. apply Forall_cons in Hwidth as [Hrow _].
    rewrite Hrows. unfold Py.len. by rewrite Hrow.
Qed.

(** C2: every row at an index below [L] is one of five vectors, the four
    basis vectors (of A, T, C and G in this order) or the zero vector. *)
Theorem one_hot_encode_rows_five slf s i :
  Z.of_nat i < sequence_length slf ->
  (exists row,
     Np.tolist (one_hot_encode_sequence slf s) !! i = Some row
     /\ row ∈ [[1; 0; 0; 0]; [0; 1; 0; 0]; [0; 0; 1; 0]; [0; 0; 0; 1];
               [0; 0; 0; 0]])
  /\ encode_base (Py.chr "A") = [1; 0; 0; 0]
  /\ encode_base (Py.chr "T") = [0; 1; 0; 0]
  /\ encode_base (Py.chr "C") = [0; 0; 1; 0]
  /\ encode_base (Py.chr "G") = [0; 0; 0; 1].
Proof.
  intros Hi. split; [|by repeat split].
  assert (Hlt : (i < length (Np.tolist (one_hot_encode_sequence slf s)))%nat)
    by (rewrite rows_length; lia).
  destruct (lookup_lt_is_Some_2 _ _ Hlt) as [row Hrow].
  exists row. split; [done|].
  apply list_elem_of_lookup_2 in Hrow.
  rewrite rows_unfold, list_map_fmap, list_elem_of_fmap in Hrow.
  destruct Hrow as (c & -> & _). apply (encode_base_five c).
Qed.

(** C5: characters outside A, T, C, G are removed before padding: a
    string encodes as its cleaned (upper-cased, filtered) subsequence
    does; ["AXTXCXG"] encodes as ["ATCG"] padded to [L], which for
    [L = 7] is four basis rows and then three zero rows. *)
Theorem one_hot_encode_filters slf s :
  one_hot_encode_sequence slf s
  = one_hot_encode_sequence slf (List.filter in_ATCG (Py.upper s))
  /\ one_hot_encode_sequence slf (Py.lit "AXTXCXG")
     = one_hot_encode_sequence slf (Py.lit "ATCG")
  /\ Np.tolist (one_hot_encode_sequence slf (Py.lit "AXTXCXG"))
     = map encode_base (pad_or_truncate (sequence_length slf) (Py.lit "ATCG"))
  /\ Np.tolist (one_hot_encode_sequence (__init__ 7) (Py.lit "AXTXCXG"))
     = [basis_A; basis_T; basis_C; basis_G; zero_row; zero_row; zero_row].
Proof.
  split; [|split; [|split]].
  - apply encode_clean_eq. symmetry. apply clean_clean.
  - by apply encode_clean_eq.
  - reflexivity.
  - reflexivity.
Qed.

(** C6: the encoding does not depend on the case of the input: a string
    and its upper case encode alike, ["atcg"] and ["ATCG"] in
    particular. *)
Theorem one_hot_encode_case_insensitive `{!Py.UnicodeIdem} slf s :
  one_hot_encode_sequence slf s = one_hot_encode_sequence slf (Py.upper s)
  /\ one_hot_encode_sequence slf (Py.lit "atcg")
     = one_hot_encode_sequence slf (Py.lit "ATCG").
Proof.
  split.
  - apply encode_clean_eq. unfold clean. by rewrite upper_upper.
  - by apply encode_clean_eq.
Qed.

(** C7: with [L = 16] the input ["AAAATTTTCCCCGGGG"] gives 16 rows: four
    times the row of A, of T, of C and of G, and no zero row. *)
Theorem one_hot_encode_AAAATTTTCCCCGGGG slf :
  sequence_length slf = 16 ->
  one_hot_encode_sequence slf (Py.lit "AAAATTTTCCCCGGGG")
  = {| Np.shape := [16; 4];
       Np.tolist := replicate 4 [1; 0; 0; 0] ++ replicate 4 [0; 1; 0; 0]
                    ++ replicate 4 [0; 0; 1; 0] ++ replicate 4 [0; 0; 0; 1] |}
  /\ [0; 0; 0; 0] ∉ Np.tolist (one_hot_encode_sequence slf (Py.lit "AAAATTTTCCCCGGGG")).
Proof.
  intros HL. unfold one_hot_encode_sequence. rewrite HL.
  split; [reflexivity|].
  change (Np.tolist _) with
    (replicate 4 [1; 0; 0; 0] ++ replicate 4 [0; 1; 0; 0]
     ++ replicate 4 [0; 0; 1; 0] ++ replicate 4 [0; 0; 0; 1]).
  simpl. rewrite !not_elem_of_cons.
  repeat split; [discriminate.. | apply not_elem_of_nil].
Qed.


End EncoderClaims.

(** ** The pipeline *)

Section ArgmaxBound.
Context {A : Type} (ltb : A -> A -> bool).

Lemma argmax_from_bound (l : list A) (best_i i : nat) (best : A) :
  (best_i < i)%nat -> (Np.argmax_from ltb best_i best i l < i + length l)%nat.
Proof.
  revert best_i i best. induction l as [|x l IH]; intros best_i i best Hlt; simpl.
  - lia.
  - destruct (ltb best x).
    + specialize (IH i (S i) x). lia.
    + specialize (IH best_i (S i) best). lia.
Qed.

(** The index [np.argmax] returns is inside the vector. *)
Lemma argmax_bound (l : list A) (k : nat) :
  Np.argmax ltb l = Some k -> (k < length l)%nat.
Proof.
  destruct l as [|x l]; simpl; [done|]. intros [= <-].
  pose proof (argmax_from_bound l 0 1 x). lia.
Qed.

End ArgmaxBound.

(** *** The fitted label encoder *)

Lemma insert_unique_subset (x : string) (b h p v : bool) :
  x ∈ ["Human"; "Bacteria"; "Virus"; "Plant"] ->
  insert_unique x (sorted_subset b h p v)
  = sorted_subset (b || bool_decide (x = "Bacteria"))
      (h || bool_decide (x = "Human"))
      (p || bool_decide (x = "Plant"))
      (v || bool_decide (x = "Virus")).
Proof.
  rewrite !elem_of_cons, elem_of_nil.
  intros [-> | [-> | [-> | [-> | []]]]]; destruct b, h, p, v; reflexivity.
Qed.

Lemma elem_of_cons_bool (x l : string) (labels : list string) :
  bool_decide (x ∈ labels) || bool_decide (l = x)
  = bool_decide (x ∈ l :: labels).
Proof.
  rewrite <- bool_decide_or. apply bool_decide_ext.
  rewrite elem_of_cons. intuition congruence.
Qed.

(** On labels taken from the four class names [np.unique] gives those
    that occur, in alphabetical order. *)
Lemma np_unique_subset (labels : list string) :
  Forall (fun l => l ∈ ["Human"; "Bacteria"; "Virus"; "Plant"]) labels ->
  np_unique labels
  = sorted_subset (bool_decide ("Bacteria" ∈ labels))
      (bool_decide ("Human" ∈ labels))
      (bool_decide ("Plant" ∈ labels))
      (bool_decide ("Virus" ∈ labels)).
Proof.
  induction 1 as [|l labels Hl _ IH]; [reflexivity|].
  unfold np_unique in *. simpl. rewrite IH, insert_unique_subset by done.
  by rewrite !elem_of_cons_bool.
Qed.

(** Fitted on labels that are exactly the four class names, the encoder
    holds them in alphabetical order. *)
Lemma fit_transform_four (labels : list string) :
  (forall l, l ∈ labels <-> l ∈ ["Human"; "Bacteria"; "Virus"; "Plant"]) ->
  classes_ (fit_transform labels).1
  = Some ["Bacteria"; "Human"; "Plant"; "Virus"].
Proof.
  intros Hl. unfold fit_transform. simpl. f_equal.
  rewrite np_unique_subset by (apply Forall_forall; intros l; apply Hl).
  rewrite !bool_decide_eq_true_2
    by (apply Hl; rewrite !elem_of_cons; tauto).
  reflexivity.
Qed.

Section Pipeline.
Context `{Py.Unicode} `{Keras}.

(** A fresh instance has no model, and loading data gives it none. *)
Lemma init_untrained (L : Z) : model (__init__ L) = None.
Proof. reflexivity. Qed.

Lemma load_keeps_model (df : list (Py.str * string)) (st : state) :
  model (self (load_and_preprocess_data df st).2) = model (self st).
Proof. reflexivity. Qed.

(** A training run that returns leaves a model in the instance. *)
Lemma train_sets_model (X : list Np.ndarray) (y : list Z) (epochs batch_size : Z)
    (st st' : state) (h : history) :
  train X y epochs batch_size st = (inr h, st') ->
  exists m, model (self st') = Some m.
Proof.
  unfold train, bind, lift, get_self, set_self, emit, emit_all, ret.
  destruct (train_test_split X y) as [e | [[[X_train X_val] y_train] y_val]];
    [done|].
  destruct (item X_train 0) as [e | first]; [done|].
  destruct (build_model (Np.shape first)) as [e | built]; [done|]. simpl.
  destruct (fit _ _ _ _ _ _ _) as [[events m] [e | hist]]; [done|].
  intros [= _ <-]. by exists m.
Qed.

(** C4: on an instance without a model, [evaluate], [predict] and
    [save_model] each raise a [ValueError]; nothing is returned, and the
    instance and the outside are left as they were. *)
Theorem untrained_operations_raise (st : state) (X : list Np.ndarray)
    (y : list Z) (sequence : Py.str) (model_path : string) :
  model (self st) = None ->
  evaluate X y st = (inl (ValueError "Model must be trained first"), st)
  /\ predict sequence st = (inl (ValueError "Model must be trained first"), st)
  /\ save_model model_path st = (inl (ValueError "No model to save"), st).
Proof.
  intros Hnone.
  unfold evaluate, predict, save_model, bind, get_self, raise.
  by rewrite Hnone.
Qed.

(** C10: on a trained instance whose network answers with four scores,
    [predict] pairs score [i] with [class_names[i]], the constructor's
    list in its own order, whatever classes the fitted label encoder
    holds; the [class] field is the label encoder's class at the arg-max
    index. The label encoder orders its classes alphabetically, so the
    two namings differ: fitted on labels that are exactly the four class
    names it holds Bacteria, Human, Plant, Virus. *)
Theorem predict_probabilities_by_class_names (st : state) (m : keras_model)
    (sequence : Py.str) (p0 p1 p2 p3 : prob) :
  model (self st) = Some m ->
  class_names (self st) = ["Human"; "Bacteria"; "Virus"; "Plant"] ->
  forward m (one_hot_encode_sequence (self st) sequence) = [p0; p1; p2; p3] ->
  (forall classes k cls,
     classes_ (label_encoder (self st)) = Some classes ->
     Np.argmax prob_ltb [p0; p1; p2; p3] = Some k ->
     classes !! k = Some cls ->
     exists conf,
       [p0; p1; p2; p3] !! k = Some conf
       /\ predict sequence st
          = (inr {| class := cls;
                    confidence := conf;
                    all_probabilities :=
                      [("Human", p0); ("Bacteria", p1); ("Virus", p2);
                       ("Plant", p3)] |},
             st))
  /\ (forall r st',
        predict sequence st = (inr r, st') ->
        all_probabilities r
        = [("Human", p0); ("Bacteria", p1); ("Virus", p2); ("Plant", p3)]
        /\ exists classes k,
             classes_ (label_encoder (self st)) = Some classes
             /\ Np.argmax prob_ltb [p0; p1; p2; p3] = Some k
             /\ classes !! k = Some (class r))
  /\ (forall labels,
        (forall l, l ∈ labels <-> l ∈ class_names (self st)) ->
        classes_ (fit_transform labels).1
        = Some ["Bacteria"; "Human"; "Plant"; "Virus"]).
Proof.
  intros Hm Hnames Hforward.
  split; [|split; [|rewrite Hnames; apply fit_transform_four]].
  - intros classes k cls Hclasses Hmax Hcls.
    pose proof (argmax_bound _ _ _ Hmax) as Hk.
    destruct (lookup_lt_is_Some_2 [p0; p1; p2; p3] k Hk) as [conf Hconf].
    exists conf. split; [done|].
    unfold predict, bind, get_self, lift, ret. rewrite Hm. simpl.
    rewrite Hforward. unfold np_argmax. rewrite Hmax.
    unfold item at 1. rewrite Hconf.
    unfold inverse_transform. rewrite Hclasses, Hcls.
    by rewrite Hnames.
  - intros r st'.
    unfold predict, bind, get_self, lift, ret. rewrite Hm. simpl.
    rewrite Hforward. unfold np_argmax.
    destruct (Np.argmax prob_ltb [p0; p1; p2; p3]) as [k|] eqn:Hmax; [|done].
    pose proof (argmax_bound _ _ _ Hmax) as Hk.
    destruct (lookup_lt_is_Some_2 [p0; p1; p2; p3] k Hk) as [conf Hconf].
    unfold item at 1. rewrite Hconf.
    unfold inverse_transform.
    destruct (classes_ (label_encoder (self st))) as [classes|]; [|done].
    destruct (classes !! k) as [cls|] eqn:Hcls; [|done].
    rewrite Hnames. simpl. intros [= <- <-]. simpl.
    split; [done|]. exists classes, k.
    split; [done|]. split; [exact Hmax | exact Hcls].
Qed.

End Pipeline.

(** ** The bootstrap *)

Import CheckModel.

Section BootstrapRun.
Context `{Tfjs}.
Implicit Types (w : world) (f : file).

(** Whether a run regenerated shows in the lines it added. *)
Lemma regenerated_suffix w w' (added : list output) :
  stdout w' = stdout w ++ added ->
  regenerated w w'
  = bool_decide (Out "Simple model created and saved successfully" ∈ added).
Proof.
  intros Hout. unfold regenerated. by rewrite Hout, drop_app_length.
Qed.


Lemma is_dir_print (o : output) w (p : string) :
  is_dir p (print o w) = is_dir p w.
Proof. reflexivity. Qed.

(** The paths of the script. *)
Lemma model_json_path_eq : path_join "models" "model.json" = "models/model.json".
Proof. reflexivity. Qed.

Lemma weights_path_eq : path_join "models" "weights.bin" = "models/weights.bin".
Proof. reflexivity. Qed.

Lemma exporter_manifest_path : path_join "models/" "model.json" = "models/model.json".
Proof. reflexivity. Qed.

Lemma exporter_weights_path_other :
  path_join "models/" weights_name <> "models".
Proof.
  change (path_join "models/" weights_name) with ("models/" +:+ weights_name).
  simpl. discriminate.
Qed.

(** A path that holds nothing holds no regular file and no directory. *)
Lemma is_file_free w (p : string) : files w !! p = None -> is_file p w = false.
Proof. unfold is_file. by intros ->. Qed.

Lemma is_dir_free w (p : string) : files w !! p = None -> is_dir p w = false.
Proof. unfold is_dir. by intros ->. Qed.

(** The directory can be made unless a regular file has its name. *)
Lemma makedirs_not_file w : is_file "models" w = false -> makedirs "models" w = inr w.
Proof.
  unfold is_file, makedirs. by destruct (files w !! "models") as [[f | n]|].
Qed.

(** The run up to the test for the manifest, with the directory made. *)
Ltac run_to_exists Hdir :=
  unfold check_and_create_model; rewrite (makedirs_not_file _ Hdir);
  rewrite model_json_path_eq, weights_path_eq;
  unfold path_exists.

(** The added lines hold no closing line of the exporter. *)
Ltac no_closing_line Hline :=
  erewrite regenerated_suffix by (simpl; rewrite <- !app_assoc; reflexivity);
  apply bool_decide_eq_false_2; simpl;
  rewrite !not_elem_of_cons;
  repeat split; try discriminate;
  [by apply not_eq_sym | apply not_elem_of_nil].

(** The exporter raises nothing when neither of its two paths is a
    directory. *)
Lemma create_simple_model_runs w :
  is_dir (path_join "models/" weights_name) w = false ->
  is_dir "models/model.json" w = false ->
  create_simple_model w = (None, exported w).
Proof.
  unfold is_dir, create_simple_model, create_file.
  intros Hweights Hmanifest. rewrite exporter_manifest_path.
  assert (Hnext : forall f,
            match files (write (path_join "models/" weights_name) f w)
                  !! "models/model.json" with
            | Some (Dir _) => true
            | _ => false
            end = false).
  { intros f. unfold write. simpl.
    destruct (decide (path_join "models/" weights_name = "models/model.json"))
      as [-> | Hne].
    - by rewrite lookup_insert_eq.
    - by rewrite lookup_insert_ne. }
  destruct (files w !! path_join "models/" weights_name) as [[f | n]|];
    [|done|];
    specialize (Hnext weights_out);
    by destruct (files (write _ weights_out w) !! "models/model.json")
      as [[f' | n']|].
Qed.


(** After the exporter has run the manifest is the exporter's. *)
Lemma exported_manifest w :
  files (exported w) !! "models/model.json" = Some (File manifest_out).
Proof.
  unfold exported, print, write. simpl.
  rewrite exporter_manifest_path. apply lookup_insert_eq.
Qed.

Lemma exported_files w :
  files (exported w)
  = <["models/model.json" := File manifest_out]>
      (<[path_join "models/" weights_name := File weights_out]> (files w)).
Proof. reflexivity. Qed.





(** The closing line of the exporter is none of the lines of a run that
    found a manifest that parses. *)
Lemma weights_line_other (n : N) :
  Out ("Weights file exists, size: " +:+ pretty n +:+ " bytes")
  <> Out "Simple model created and saved successfully".
Proof. discriminate. Qed.


(** A manifest that is there and parses: the run reports and writes
    nothing. *)
Lemma check_manifest_valid w f :
  is_file "models" w = false ->
  files w !! "models/model.json" = Some (File f) ->
  parses f = true ->
  exists line,
    check_and_create_model w
    = (None, print line
               (print (Out "Model JSON is valid")
                  (print (Out "Model files already exist") w)))
    /\ line <> Out "Simple model created and saved successfully".
Proof.
  intros Hdir Hf Hparse.
  run_to_exists Hdir. rewrite Hf. simpl.
  unfold validate. simpl. rewrite Hf, Hparse.
  destruct (files w !! "models/weights.bin") as [wf|].
  - eexists. split; [reflexivity | apply weights_line_other].
  - eexists. split; [reflexivity | discriminate].
Qed.

(** No manifest: the bundle is created, and validated when the exporter
    keeps its contract. *)
Lemma check_manifest_missing `{!TfjsOk} w :
  is_file "models" w = false ->
  files w !! "models/model.json" = None ->
  is_dir (path_join "models/" weights_name) w = false ->
  exists line,
    check_and_create_model w
    = (None, print line
               (print (Out "Model JSON is valid")
                  (exported (print (Out "Creating model files...") w)))).
Proof.
  intros Hdir Hnone Hweights.
  run_to_exists Hdir. rewrite Hnone. simpl.
  rewrite create_simple_model_runs
    by (rewrite is_dir_print; (done || by apply is_dir_free)).
  unfold validate.
  rewrite exported_manifest, manifest_out_parses.
  destruct (files _ !! "models/weights.bin"); eexists; reflexivity.
Qed.


Lemma exporter_weights_path_fresh `{!TfjsOk} :
  path_join "models/" weights_name <> "models/model.json".
Proof.
  change (path_join "models/" weights_name) with ("models/" +:+ weights_name).
  simpl. intros [= Heq]. by apply weights_name_fresh.
Qed.

(** The weights file the exporter wrote is there and not empty. *)
Lemma exported_weights `{!TfjsOk} w :
  weights_ok (path_join "models/" weights_name) (exported w) = true.
Proof.
  unfold weights_ok. rewrite exported_files.
  rewrite lookup_insert_ne by (apply not_eq_sym, exporter_weights_path_fresh).
  rewrite lookup_insert_eq. apply bool_decide_eq_true_2, weights_out_nonempty.
Qed.

(** With a manifest that parses, a missing weights file is reported and
    nothing is written. *)
Remark check_weights_missing_reported w f :
  files w !! "models" = None ->
  files w !! "models/model.json" = Some (File f) ->
  parses f = true ->
  files w !! "models/weights.bin" = None ->
  check_and_create_model w
  = (None, print (Out "Weights file missing")
             (print (Out "Model JSON is valid")
                (print (Out "Model files already exist") w))).
Proof.
  intros Hdir Hf Hparse Hweights. apply is_file_free in Hdir.
  run_to_exists Hdir. rewrite Hf. simpl.
  unfold validate. simpl. by rewrite Hf, Hparse, Hweights.
Qed.



(** C8: from an empty directory one run leaves a manifest that parses
    and a weights file that is not empty; a second run on the result
    writes nothing and creates nothing. *)
Theorem check_and_create_model_idempotent `{!TfjsOk} w :
  files w = ∅ ->
  exists w1 w2,
    check_and_create_model w = (None, w1)
    /\ manifest_ok w1 = true
    /\ weights_ok (path_join "models/" weights_name) w1 = true
    /\ check_and_create_model w1 = (None, w2)
    /\ files w2 = files w1
    /\ regenerated w1 w2 = false.
Proof.
  intros Hempty.
  assert (Hfree : forall p : string, files w !! p = None)
    by (intros p; by rewrite Hempty).
  destruct (check_manifest_missing w (is_file_free _ _ (Hfree _)) (Hfree _)
              (is_dir_free _ _ (Hfree _))) as (line & Hrun1).
  set (w1 := print line
               (print (Out "Model JSON is valid")
                  (exported (print (Out "Creating model files...") w))))
    in *.
  assert (Hmanifest : files w1 !! "models/model.json" = Some (File manifest_out))
    by apply exported_manifest.
  assert (Hdir1 : is_file "models" w1 = false).
  { apply is_file_free. unfold w1. simpl. rewrite lookup_insert_ne by done.
    rewrite lookup_insert_ne by apply exporter_weights_path_other.
    apply Hfree. }
  destruct (check_manifest_valid w1 manifest_out Hdir1 Hmanifest
              manifest_out_parses) as (line2 & Hrun2 & Hline2).
  eexists w1, _. split; [exact Hrun1|]. split; [|split; [|split; [exact Hrun2|]]].
  - unfold manifest_ok. by rewrite Hmanifest, manifest_out_parses.
  - apply (exported_weights (print (Out "Creating model files...") w)).
  - split; [done|]. no_closing_line Hline2.
Qed.

End BootstrapRun.

(** ** The statements at concrete inputs *)

(** C1 as stated (an [L] by 4 matrix for every [L >= 0]) fails at
    [L = 0]: the result is the empty array of shape [(0,)]. *)
Lemma one_hot_encode_shape_at_zero :
  0 <= @sequence_length keras_constant (__init__ 0)
  /\ @one_hot_encode_sequence Py.upper_fragment keras_constant
       (__init__ 0) (Py.lit "ACGT")
     = {| Np.shape := [0]; Np.tolist := [] |}
  /\ Np.shape (@one_hot_encode_sequence Py.upper_fragment keras_constant
                 (__init__ 0) (Py.lit "ACGT"))
     <> [@sequence_length keras_constant (__init__ 0); 4].
Proof. split; [done|]. split; [reflexivity | discriminate]. Qed.

Lemma one_hot_encode_shape_default :
  let slf := @__init__ keras_constant default_sequence_length in
  let out := @one_hot_encode_sequence Py.upper_fragment keras_constant
               slf (Py.lit "acgtn") in
  0 <= sequence_length slf
  /\ Py.len (Np.tolist out) = sequence_length slf
  /\ Forall (fun row => Py.len row = 4) (Np.tolist out)
  /\ (1 <= sequence_length slf -> Np.shape out = [sequence_length slf; 4])
  /\ (sequence_length slf = 0 -> Np.shape out = [0]).
Proof.
  assert (Hlen : 0 <= @sequence_length keras_constant
                        (__init__ default_sequence_length))
    by (vm_compute; discriminate).
  split; [exact Hlen|].
  exact (@one_hot_encode_shape Py.upper_fragment keras_constant
           (__init__ default_sequence_length) (Py.lit "acgtn") Hlen).
Defined.

Lemma one_hot_encode_rows_five_default :
  let slf := @__init__ keras_constant default_sequence_length in
  let out := @one_hot_encode_sequence Py.upper_fragment keras_constant
               slf (Py.lit "gattaca") in
  Z.of_nat 2 < sequence_length slf
  /\ exists row,
       Np.tolist out !! 2%nat = Some row
       /\ row ∈ [[1; 0; 0; 0]; [0; 1; 0; 0]; [0; 0; 1; 0]; [0; 0; 0; 1];
                 [0; 0; 0; 0]].
Proof.
  assert (Hi : Z.of_nat 2 < @sequence_length keras_constant
                              (__init__ default_sequence_length))
    by (vm_compute; reflexivity).
  split; [exact Hi|].
  exact (proj1 (@one_hot_encode_rows_five Py.upper_fragment keras_constant
                  (__init__ default_sequence_length) (Py.lit "gattaca") 2 Hi)).
Defined.

Lemma one_hot_encode_case_insensitive_fragment :
  let slf := @__init__ keras_constant default_sequence_length in
  let s := Py.lit "acgT" ++ [0x1E97%N; 0xDF%N; 0xFB05%N] in
  @Py.UnicodeIdem Py.upper_fragment
  /\ @one_hot_encode_sequence Py.upper_fragment keras_constant slf s
     = @one_hot_encode_sequence Py.upper_fragment keras_constant slf
         (@Py.upper Py.upper_fragment s).
Proof.
  split; [exact upper_fragment_idem|].
  exact (proj1 (@one_hot_encode_case_insensitive Py.upper_fragment
                  keras_constant upper_fragment_idem
                  (__init__ default_sequence_length)
                  (Py.lit "acgT" ++ [0x1E97%N; 0xDF%N; 0xFB05%N]))).
Defined.

Lemma one_hot_encode_AAAATTTTCCCCGGGG_16 :
  let slf := @__init__ keras_constant 16 in
  let out := @one_hot_encode_sequence Py.upper_fragment keras_constant
               slf (Py.lit "AAAATTTTCCCCGGGG") in
  sequence_length slf = 16
  /\ out = {| Np.shape := [16; 4];
              Np.tolist := replicate 4 [1; 0; 0; 0] ++ replicate 4 [0; 1; 0; 0]
                           ++ replicate 4 [0; 0; 1; 0]
                           ++ replicate 4 [0; 0; 0; 1] |}
  /\ [0; 0; 0; 0] ∉ Np.tolist out.
Proof.
  split; [reflexivity|].
  exact (@one_hot_encode_AAAATTTTCCCCGGGG Py.upper_fragment keras_constant
           (__init__ 16) eq_refl).
Defined.


Lemma untrained_operations_raise_fresh :
  model (self fresh_state) = None
  /\ @evaluate keras_constant [] [] fresh_state
     = (inl (ValueError "Model must be trained first"), fresh_state)
  /\ @predict Py.upper_fragment keras_constant (Py.lit "ACGT") fresh_state
     = (inl (ValueError "Model must be trained first"), fresh_state)
  /\ @save_model keras_constant "models/" fresh_state
     = (inl (ValueError "No model to save"), fresh_state).
Proof.
  split; [reflexivity|].
  exact (@untrained_operations_raise Py.upper_fragment keras_constant
           fresh_state [] [] (Py.lit "ACGT") "models/" eq_refl).
Defined.

Lemma predict_probabilities_trained :
  model (self trained_state) = Some ([700; 100; 150; 50] : @keras_model keras_constant)
  /\ class_names (self trained_state) = ["Human"; "Bacteria"; "Virus"; "Plant"]
  /\ classes_ (label_encoder (self trained_state))
     = Some ["Bacteria"; "Human"; "Plant"; "Virus"]
  /\ exists conf,
       ([700; 100; 150; 50] : list Z) !! 0%nat = Some conf
       /\ @predict Py.upper_fragment keras_constant (Py.lit "ACGT") trained_state
          = (inr (@Build_prediction keras_constant "Bacteria" conf
                    [("Human", 700); ("Bacteria", 100); ("Virus", 150);
                     ("Plant", 50)]),
             trained_state).
Proof.
  split; [reflexivity|]. split; [reflexivity|]. split; [reflexivity|].
  exact (proj1 (@predict_probabilities_by_class_names Py.upper_fragment
                  keras_constant trained_state [700; 100; 150; 50]
                  (Py.lit "ACGT") 700 100 150 50 eq_refl eq_refl eq_refl)
           ["Bacteria"; "Human"; "Plant"; "Virus"] 0%nat "Bacteria"
           eq_refl eq_refl eq_refl).
Defined.


Lemma tfjs_shard_ok : @TfjsOk tfjs_shard.
Proof. split; [reflexivity | reflexivity | discriminate]. Qed.



(** The amended statement on a directory whose manifest does not parse:
    the bundle is created. *)
Example check_and_create_model_repairs_stray :
  exists w',
    @check_and_create_model tfjs_shard stray_world = (None, w')
    /\ manifest_ok stray_world = false
    /\ manifest_ok w' = true
    /\ regenerated stray_world w' = true.
Proof. eexists. vm_compute. repeat split. Qed.

(** With a directory in the place of the manifest the run ends with the
    exception of the exporter, after the weights file was written. *)
Example check_and_create_model_manifest_directory :
  @check_and_create_model tfjs_shard manifest_directory_world
  = (Some (IsADirectoryError "models/model.json"),
     {| files := {[ "models" := Dir 4096;
                    "models/model.json" := Dir 4096;
                    "models/group1-shard1of1.bin"
                    := File {| size := 2083332; parses := false |} ]};
        stdout := [Out "Model files already exist";
                   OutError "Error validating model files: "
                     (IsADirectoryError "models/model.json")] |}).
Proof. vm_compute. reflexivity. Qed.

Lemma check_and_create_model_idempotent_shard :
  @TfjsOk tfjs_shard
  /\ files empty_world = ∅
  /\ exists w1 w2,
       @check_and_create_model tfjs_shard empty_world = (None, w1)
       /\ manifest_ok w1 = true
       /\ weights_ok (path_join "models/" (@weights_name tfjs_shard)) w1 = true
       /\ @check_and_create_model tfjs_shard w1 = (None, w2)
       /\ files w2 = files w1
       /\ regenerated w1 w2 = false.
Proof.
  split; [exact tfjs_shard_ok|]. split; [reflexivity|].
  exact (@check_and_create_model_idempotent tfjs_shard tfjs_shard_ok
           empty_world eq_refl).
Defined.

(** * Further properties of the code *)

(** ** What the encoder tells apart *)

Section EncoderFurther.
Context `{Py.Unicode} `{Keras}.
Implicit Types (slf : DNASequenceClassifier) (s t : Py.str) (i : nat).

Lemma encode_base_inj (a b : Py.char) :
  in_ATCG a = true -> in_ATCG b = true ->
  encode_base a = encode_base b -> a = b.
Proof.
  rewrite !in_ATCG_iff.
  intros [-> | [-> | [-> | ->]]] [-> | [-> | [-> | ->]]] Heq;
    first [reflexivity | by vm_compute in Heq].
Qed.

Lemma encode_base_not_zero (a : Py.char) :
  in_ATCG a = true -> encode_base a <> zero_row.
Proof.
  intros Ha Heq. apply zero_row_not_basis. rewrite <- Heq.
  by apply encode_base_in.
Qed.

Lemma clean_app s t : clean (s ++ t) = clean s ++ clean t.
Proof. unfold clean. by rewrite upper_app, List.filter_app. Qed.

(** Equal cleaned prefixes of length [L] give equal encodings. *)
Lemma encode_take_eq slf s1 s2 :
  0 <= sequence_length slf ->
  take (Z.to_nat (sequence_length slf)) (clean s1)
  = take (Z.to_nat (sequence_length slf)) (clean s2) ->
  one_hot_encode_sequence slf s1 = one_hot_encode_sequence slf s2.
Proof.
  intros HL Htake. unfold one_hot_encode_sequence.
  rewrite !pad_or_truncate_take by done. rewrite Htake.
  apply (f_equal length) in Htake. rewrite !length_take in Htake.
  by replace (Z.to_nat (sequence_length slf) - length (clean s1))%nat
    with (Z.to_nat (sequence_length slf) - length (clean s2))%nat by lia.
Qed.

(** The cleaned prefix can be read back from the rows. *)
Lemma encode_take_inv slf s1 s2 :
  0 <= sequence_length slf ->
  Np.tolist (one_hot_encode_sequence slf s1)
  = Np.tolist (one_hot_encode_sequence slf s2) ->
  take (Z.to_nat (sequence_length slf)) (clean s1)
  = take (Z.to_nat (sequence_length slf)) (clean s2).
Proof.
  intros HL Hrows. apply list_eq. intros i.
  destruct (decide (i < Z.to_nat (sequence_length slf))%nat) as [Hi | Hi];
    [|by rewrite !lookup_take_ge by lia].
  rewrite !lookup_take_lt by done.
  destruct (decide (i < length (clean s1))%nat) as [H1 | H1];
    destruct (decide (i < length (clean s2))%nat) as [H2 | H2].
  - destruct (rows_prefix slf s1 i HL Hi H1) as (a & Ha & Hina & Hrow1).
    destruct (rows_prefix slf s2 i HL Hi H2) as (b & Hb & Hinb & Hrow2).
    rewrite Ha, Hb. f_equal. apply encode_base_inj; [done..|]. congruence.
  - destruct (rows_prefix slf s1 i HL Hi H1) as (a & Ha & Hina & Hrow1).
    pose proof (rows_padding slf s2 i HL Hi ltac:(lia)) as Hrow2.
    exfalso. apply (encode_base_not_zero a Hina). congruence.
  - destruct (rows_prefix slf s2 i HL Hi H2) as (b & Hb & Hinb & Hrow2).
    pose proof (rows_padding slf s1 i HL Hi ltac:(lia)) as Hrow1.
    exfalso. apply (encode_base_not_zero b Hinb). congruence.
  - by rewrite !lookup_ge_None_2 by lia.
Qed.

(** X1: for a target length that is not negative, two inputs have the
    same encoding exactly when their cleaned sequences agree on the first
    [L] characters: the encoding loses nothing of the first [L] bases and
    depends on nothing else. *)
Theorem one_hot_encode_eq_iff slf s1 s2 :
  0 <= sequence_length slf ->
  one_hot_encode_sequence slf s1 = one_hot_encode_sequence slf s2
  <-> take (Z.to_nat (sequence_length slf)) (List.filter in_ATCG (Py.upper s1))
      = take (Z.to_nat (sequence_length slf)) (List.filter in_ATCG (Py.upper s2)).
Proof.
  intros HL. split.
  - intros Heq. apply (encode_take_inv slf s1 s2 HL). by rewrite Heq.
  - apply encode_take_eq, HL.
Qed.

(** X2: once the input holds [L] valid bases, whatever follows is
    ignored. *)
Theorem one_hot_encode_truncates slf s t :
  0 <= sequence_length slf ->
  sequence_length slf <= Py.len (List.filter in_ATCG (Py.upper s)) ->
  one_hot_encode_sequence slf (s ++ t) = one_hot_encode_sequence slf s.
Proof.
  intros HL Hlen. apply encode_take_eq; [done|].
  rewrite clean_app. apply take_app_le. unfold Py.len, clean in *. lia.
Qed.

(** X3: an input none of whose upper-cased characters is A, T, C or G
    encodes as the empty input does: every row is the zero row. *)
Theorem one_hot_encode_invalid_only slf s :
  Forall (fun c => in_ATCG c = false) (Py.upper s) ->
  one_hot_encode_sequence slf s = one_hot_encode_sequence slf []
  /\ Np.tolist (one_hot_encode_sequence slf s)
     = replicate (Z.to_nat (sequence_length slf)) zero_row.
Proof.
  intros Hbad.
  assert (Hclean : clean s = []).
  { unfold clean. induction Hbad as [|c l Hc _ IH]; simpl; [done|].
    by rewrite Hc. }
  split; [by apply encode_clean_eq|].
  rewrite rows_unfold, Hclean. unfold pad_or_truncate, Py.slice_to, Py.len.
  simpl. rewrite lit_N, mul_singleton, Z.sub_0_r.
  repeat case_bool_decide; simpl; rewrite ?take_nil.
  - by rewrite list_map_fmap, fmap_replicate.
  - by replace (Z.to_nat (sequence_length slf)) with 0%nat by lia.
  - by replace (Z.to_nat (sequence_length slf)) with 0%nat by lia.
Qed.

(** X4: a negative target length is accepted: nothing is padded, the
    last [-L] bases of the cleaned sequence are dropped, and every row
    left is a basis row. *)
Theorem one_hot_encode_negative_length slf s :
  sequence_length slf < 0 ->
  Np.tolist (one_hot_encode_sequence slf s)
  = map encode_base
      (take (Z.to_nat (Py.len (List.filter in_ATCG (Py.upper s))
                       + sequence_length slf))
            (List.filter in_ATCG (Py.upper s)))
  /\ Forall (fun row => row ∈ basis_rows)
            (Np.tolist (one_hot_encode_sequence slf s)).
Proof.
  intros HL.
  assert (Hrows : Np.tolist (one_hot_encode_sequence slf s)
                  = map encode_base
                      (take (Z.to_nat (Py.len (clean s) + sequence_length slf))
                            (clean s))).
  { rewrite rows_unfold. unfold pad_or_truncate, Py.slice_to.
    rewrite bool_decide_eq_false_2 by (unfold Py.len; lia).
    by rewrite bool_decide_eq_false_2 by lia. }
  split; [exact Hrows|].
  rewrite Hrows, list_map_fmap. apply Forall_forall. intros row.
  rewrite list_elem_of_fmap. intros (c & -> & Hc).
  apply elem_of_take in Hc as (i & Hi & _).
  apply encode_base_in. eapply clean_all_bases, list_elem_of_lookup_2, Hi.
Qed.

End EncoderFurther.

(** ** Loading: samples, class indices and the fitted classes *)

Section LabelOrder.

Lemma string_lt_trans (a b c : string) :
  string_lt a b -> string_lt b c -> string_lt a c.
Proof.
  unfold string_lt. intros Hab Hbc. apply OrderedTypeEx.String_as_OT.cmp_lt.
  apply (OrderedTypeEx.String_as_OT.lt_trans a b c);
    by apply OrderedTypeEx.String_as_OT.cmp_lt.
Qed.

Lemma string_gt_lt (a b : string) :
  String.compare a b = Gt -> string_lt b a.
Proof.
  unfold string_lt. intros Hgt. rewrite String.compare_antisym, Hgt. reflexivity.
Qed.

Lemma insert_unique_elem (x y : string) (l : list string) :
  y ∈ insert_unique x l <-> y = x \/ y ∈ l.
Proof.
  induction l as [|z l IH]; simpl.
  - rewrite elem_of_cons, elem_of_nil. tauto.
  - destruct (String.compare x z) eqn:Hcmp.
    + apply String.compare_eq_iff in Hcmp as ->.
      rewrite elem_of_cons. tauto.
    + rewrite !elem_of_cons. tauto.
    + rewrite !elem_of_cons, IH. tauto.
Qed.

(** [np.unique] keeps exactly the labels. *)
Lemma np_unique_elem (labels : list string) (y : string) :
  y ∈ np_unique labels <-> y ∈ labels.
Proof.
  unfold np_unique. induction labels as [|x labels IH]; simpl; [done|].
  rewrite insert_unique_elem, IH, elem_of_cons. tauto.
Qed.

Lemma insert_unique_sorted (x : string) (l : list string) :
  Sorted.StronglySorted string_lt l -> Sorted.StronglySorted string_lt (insert_unique x l).
Proof.
  induction 1 as [|z l Hsorted IH Hall]; simpl.
  - repeat constructor.
  - destruct (String.compare x z) eqn:Hcmp.
    + by constructor.
    + constructor; [by constructor|].
      constructor; [done|].
      eapply List.Forall_impl; [|exact Hall].
      intros w Hw. by eapply string_lt_trans.
    + constructor; [done|].
      apply Forall_forall. intros w Hw.
      apply insert_unique_elem in Hw as [-> | Hw].
      * by apply string_gt_lt.
      * by eapply (proj1 (Forall_forall _ _) Hall).
Qed.

(** [np.unique] sorts: every class is below the classes after it. *)
Lemma np_unique_sorted (labels : list string) :
  Sorted.StronglySorted string_lt (np_unique labels).
Proof.
  unfold np_unique. induction labels as [|x labels IH]; simpl.
  - constructor.
  - by apply insert_unique_sorted.
Qed.

Lemma index_of_lookup (x : string) (l : list string) :
  x ∈ l -> exists k, index_of x l = Some k /\ l !! k = Some x.
Proof.
  induction l as [|z l IH]; [by rewrite elem_of_nil|].
  intros Hin. simpl. case_bool_decide as Heq.
  - subst. by exists 0%nat.
  - apply elem_of_cons in Hin as [? | Hin]; [done|].
    destruct (IH Hin) as (k & -> & Hk). by exists (S k).
Qed.

End LabelOrder.

Section Loading.
Context `{Py.Unicode} `{Keras}.

Lemma load_unfold (df : list (Py.str * string)) (st : state) :
  load_and_preprocess_data df st
  = (inr (map (one_hot_encode_sequence (self st)) (map fst df),
          (fit_transform (map snd df)).2),
     {| self := {| sequence_length := sequence_length (self st);
                   model := model (self st);
                   label_encoder := (fit_transform (map snd df)).1;
                   class_names := class_names (self st) |};
        effects := (effects st ++ [PrintLine "Loading dataset..."])
                   ++ [PrintLine ("Loaded " +:+ pretty (Py.len (map fst df))
                                  +:+ " sequences")] |}).
Proof. reflexivity. Qed.

(** X5: loading then inverting is the identity on labels: row [i] of the
    table gets the encoding of its sequence and a class index that the
    fitted label encoder maps back to the label of that row. *)
Theorem load_labels_round_trip (df : list (Py.str * string)) (st : state)
    (i : nat) (sequence : Py.str) (label : string) :
  df !! i = Some (sequence, label) ->
  exists X y st' k,
    load_and_preprocess_data df st = (inr (X, y), st')
    /\ X !! i = Some (one_hot_encode_sequence (self st) sequence)
    /\ y !! i = Some (Z.of_nat k)
    /\ inverse_transform (label_encoder (self st')) k = inr label.
Proof.
  intros Hrow. rewrite load_unfold.
  assert (Hlabel : map snd df !! i = Some label)
    by (by rewrite list_map_fmap, list_lookup_fmap, Hrow).
  assert (Hin : label ∈ np_unique (map snd df))
    by (eapply np_unique_elem, list_elem_of_lookup_2, Hlabel).
  destruct (index_of_lookup _ _ Hin) as (k & Hindex & Hk).
  eexists _, _, _, k. split; [reflexivity|]. split; [|split].
  - by rewrite !list_map_fmap, !list_lookup_fmap, Hrow.
  - unfold fit_transform. simpl. set (labels := map snd df) in *.
    rewrite list_map_fmap, list_lookup_fmap, Hlabel. simpl.
    by rewrite Hindex.
  - unfold inverse_transform, fit_transform. simpl. by rewrite Hk.
Qed.

(** X6: loading returns one sample and one class index per row; the
    fitted classes are exactly the labels of the table, each once, in
    strictly ascending order, and every class index points into them;
    the length, the model and the class names of the instance are kept
    and two lines are printed. *)
Theorem load_result (df : list (Py.str * string)) (st : state) :
  exists X y st' classes,
    load_and_preprocess_data df st = (inr (X, y), st')
    /\ length X = length df /\ length y = length df
    /\ classes_ (label_encoder (self st')) = Some classes
    /\ Sorted.StronglySorted string_lt classes
    /\ (forall l, l ∈ classes <-> l ∈ map snd df)
    /\ Forall (fun c => 0 <= c < Py.len classes) y
    /\ sequence_length (self st') = sequence_length (self st)
    /\ model (self st') = model (self st)
    /\ class_names (self st') = class_names (self st)
    /\ effects st'
       = effects st
         ++ [PrintLine "Loading dataset...";
             PrintLine ("Loaded " +:+ pretty (Py.len df) +:+ " sequences")].
Proof.
  rewrite load_unfold. eexists _, _, _, (np_unique (map snd df)).
  split; [reflexivity|]. simpl.
  split; [by rewrite !length_map|]. split; [by rewrite !length_map|].
  split; [done|]. split; [apply np_unique_sorted|].
  split; [apply np_unique_elem|].
  split; [|split; [done|split; [done|split; [done|]]]].
  - set (labels := map snd df).
    rewrite list_map_fmap. apply Forall_fmap, Forall_forall. intros l Hl. simpl.
    assert (Hin : l ∈ np_unique labels) by by apply np_unique_elem.
    destruct (index_of_lookup _ _ Hin) as (k & -> & Hk). simpl.
    apply lookup_lt_Some in Hk. unfold Py.len. lia.
  - rewrite <- app_assoc. simpl. unfold Py.len. by rewrite length_map.
Qed.

End Loading.

(** ** Prediction and export beyond the guard *)

Section PipelineFurther.
Context `{Py.Unicode} `{Keras}.
Implicit Types (st : state) (m : keras_model) (v : list prob).

(** [predict] on a trained instance, step by step. *)
Lemma predict_returns st m sequence v k conf classes cls d :
  model (self st) = Some m ->
  forward m (one_hot_encode_sequence (self st) sequence) = v ->
  Np.argmax prob_ltb v = Some k ->
  v !! k = Some conf ->
  classes_ (label_encoder (self st)) = Some classes ->
  classes !! k = Some cls ->
  probabilities_from (class_names (self st)) 0 v [] = inr d ->
  predict sequence st
  = (inr {| class := cls; confidence := conf; all_probabilities := d |}, st).
Proof.
  intros Hm Hv Hmax Hconf Hclasses Hcls Hd.
  unfold predict, bind, get_self, lift, ret. rewrite Hm. simpl.
  rewrite Hv. unfold np_argmax. rewrite Hmax.
  unfold item at 1. rewrite Hconf.
  unfold inverse_transform. rewrite Hclasses, Hcls. by rewrite Hd.
Qed.

Lemma predict_index_error st m sequence v k conf classes cls :
  model (self st) = Some m ->
  forward m (one_hot_encode_sequence (self st) sequence) = v ->
  Np.argmax prob_ltb v = Some k ->
  v !! k = Some conf ->
  classes_ (label_encoder (self st)) = Some classes ->
  classes !! k = Some cls ->
  probabilities_from (class_names (self st)) 0 v [] = inl IndexError ->
  predict sequence st = (inl IndexError, st).
Proof.
  intros Hm Hv Hmax Hconf Hclasses Hcls Hd.
  unfold predict, bind, get_self, lift, ret. rewrite Hm. simpl.
  rewrite Hv. unfold np_argmax. rewrite Hmax.
  unfold item at 1. rewrite Hconf.
  unfold inverse_transform. rewrite Hclasses, Hcls. by rewrite Hd.
Qed.

(** Storing under a key that is not there appends the entry. *)
Lemma dict_set_fresh {V} (k : string) (x : V) (d : list (string * V)) :
  k ∉ d.*1 -> dict_set k x d = d ++ [(k, x)].
Proof.
  induction d as [|[k' x'] d IH]; simpl; [done|].
  rewrite not_elem_of_cons. intros [Hne Hnotin].
  rewrite bool_decide_eq_false_2 by done. by rewrite IH.
Qed.

(** The dictionary comprehension over distinct names: the scores are
    paired with the names in order, and one score too many is an
    [IndexError]. *)
Lemma probabilities_from_zip {V} (names : list string) (probs : list V)
    (i : nat) (d : list (string * V)) :
  NoDup names -> (i <= length names)%nat -> d.*1 = take i names ->
  probabilities_from names i probs d
  = if decide (i + length probs <= length names)%nat
    then inr (d ++ zip (drop i names) probs)
    else inl IndexError.
Proof.
  intros Hnodup. revert i d.
  induction probs as [|p probs IH]; intros i d Hi Hkeys; simpl.
  - rewrite decide_True by lia. by rewrite zip_with_nil_r, app_nil_r.
  - unfold item. destruct (names !! i) as [name|] eqn:Hname.
    + assert (Hfresh : name ∉ d.*1).
      { rewrite Hkeys. intros Hin.
        apply list_elem_of_lookup in Hin as (j & Hj).
        apply lookup_take_Some in Hj as [Hj Hlt].
        pose proof (NoDup_lookup _ _ _ _ Hnodup Hj Hname). lia. }
      pose proof (lookup_lt_Some _ _ _ Hname) as Hlt.
      rewrite dict_set_fresh by done.
      rewrite IH.
      * repeat case_decide; try lia; [|done].
        rewrite <- app_assoc. simpl.
        by rewrite (drop_S _ _ _ Hname).
      * lia.
      * rewrite fmap_app, Hkeys. simpl.
        by rewrite (take_S_r _ _ _ Hname).
    + apply lookup_ge_None in Hname.
      by rewrite decide_False by lia.
Qed.

Lemma class_names_nodup : NoDup ["Human"; "Bacteria"; "Virus"; "Plant"].
Proof. compute_done. Qed.

(** X7: when the label encoder was fitted on labels that are exactly the
    four class names, the class [predict] returns is never the name under
    which [all_probabilities] holds the returned confidence: the score at
    the arg-max index is stored under [class_names] at that index, the
    class is read from the alphabetical classes at that index, and the two
    lists differ at every index. *)
Theorem predict_class_differs_from_top_key st m (labels : list string)
    (sequence : Py.str) (p0 p1 p2 p3 : prob) :
  model (self st) = Some m ->
  class_names (self st) = ["Human"; "Bacteria"; "Virus"; "Plant"] ->
  label_encoder (self st) = (fit_transform labels).1 ->
  (forall l, l ∈ labels <-> l ∈ ["Human"; "Bacteria"; "Virus"; "Plant"]) ->
  forward m (one_hot_encode_sequence (self st) sequence) = [p0; p1; p2; p3] ->
  exists r k name,
    predict sequence st = (inr r, st)
    /\ Np.argmax prob_ltb [p0; p1; p2; p3] = Some k
    /\ all_probabilities r !! k = Some (name, confidence r)
    /\ class r <> name.
Proof.
  intros Hm Hnames Henc Hlabels Hv.
  pose proof (fit_transform_four labels Hlabels) as Hclasses.
  rewrite <- Henc in Hclasses.
  destruct (Np.argmax prob_ltb [p0; p1; p2; p3]) as [k|] eqn:Hmax; [|done].
  pose proof (argmax_bound _ _ _ Hmax) as Hk. simpl in Hk.
  assert (Hd : probabilities_from (class_names (self st)) 0 [p0; p1; p2; p3] []
               = inr [("Human", p0); ("Bacteria", p1); ("Virus", p2);
                      ("Plant", p3)])
    by (by rewrite Hnames).
  destruct k as [|[|[|[|k]]]]; [..|lia];
    (eexists _, _, _; split;
     [eapply (predict_returns st m sequence _ _ _ _ _ _ Hm Hv Hmax);
        [reflexivity | exact Hclasses | reflexivity | exact Hd]
     | split; [reflexivity | split; [reflexivity | discriminate]]]).
Qed.

(** [predict] when the fitted classes have no entry at the arg-max
    index: [inverse_transform] raises before the dictionary of the
    scores is made. *)
Lemma predict_unseen_label st m sequence v k conf classes :
  model (self st) = Some m ->
  forward m (one_hot_encode_sequence (self st) sequence) = v ->
  Np.argmax prob_ltb v = Some k ->
  v !! k = Some conf ->
  classes_ (label_encoder (self st)) = Some classes ->
  classes !! k = None ->
  predict sequence st
  = (inl (ValueError "y contains previously unseen labels"), st).
Proof.
  intros Hm Hv Hmax Hconf Hclasses Hcls.
  unfold predict, bind, get_self, lift, ret. rewrite Hm. simpl.
  rewrite Hv. unfold np_argmax. rewrite Hmax.
  unfold item at 1. rewrite Hconf.
  unfold inverse_transform. by rewrite Hclasses, Hcls.
Qed.

(** X8: on an instance with a model, the constructor's class names and a
    fitted label encoder, let the network answer with a non-empty score
    vector whose arg-max index is [k]. If the fitted classes have no
    entry [k], [predict] raises the [ValueError] of [inverse_transform],
    however many scores there are. If they have one: up to four scores
    are stored under the first class names in order (fewer scores, fewer
    keys), and with more than four scores [predict] raises [IndexError]
    from [class_names[i]]. The state is left alone in each case. *)
Theorem predict_score_count st m (sequence : Py.str) (v : list prob)
    (k : nat) (classes : list string) :
  model (self st) = Some m ->
  class_names (self st) = ["Human"; "Bacteria"; "Virus"; "Plant"] ->
  forward m (one_hot_encode_sequence (self st) sequence) = v ->
  Np.argmax prob_ltb v = Some k ->
  classes_ (label_encoder (self st)) = Some classes ->
  (classes !! k = None ->
   predict sequence st
   = (inl (ValueError "y contains previously unseen labels"), st))
  /\ (forall cls,
        classes !! k = Some cls -> (length v <= 4)%nat ->
        exists conf,
          v !! k = Some conf
          /\ predict sequence st
             = (inr {| class := cls;
                       confidence := conf;
                       all_probabilities :=
                         zip ["Human"; "Bacteria"; "Virus"; "Plant"] v |},
                st))
  /\ (forall cls,
        classes !! k = Some cls -> (4 < length v)%nat ->
        predict sequence st = (inl IndexError, st)).
Proof.
  intros Hm Hnames Hv Hmax Hclasses.
  pose proof (argmax_bound _ _ _ Hmax) as Hk.
  destruct (lookup_lt_is_Some_2 v k Hk) as [conf Hconf].
  pose proof (probabilities_from_zip ["Human"; "Bacteria"; "Virus"; "Plant"]
                v 0 [] class_names_nodup ltac:(simpl; lia) eq_refl) as Hd.
  rewrite <- Hnames in Hd at 1. simpl in Hd.
  split; [|split].
  - intros Hcls.
    by apply (predict_unseen_label st m sequence v k conf classes).
  - intros cls Hcls Hlen. exists conf. split; [done|].
    rewrite decide_True in Hd by lia.
    by apply (predict_returns st m sequence v k conf classes cls).
  - intros cls Hcls Hlen. rewrite decide_False in Hd by lia.
    by apply (predict_index_error st m sequence v k conf classes cls).
Qed.

(** X9: an instance that was trained without loading data has a model
    and an unfitted label encoder: [predict] raises [NotFittedError], and
    [save_model] raises [AttributeError] only after the two model files
    are written, so that the bundle is left without its metadata. *)
Theorem unfitted_encoder_failures st m (sequence : Py.str)
    (model_path : string) :
  model (self st) = Some m ->
  classes_ (label_encoder (self st)) = None ->
  forward m (one_hot_encode_sequence (self st) sequence) <> [] ->
  predict sequence st = (inl NotFittedError, st)
  /\ save_model model_path st
     = (inl (AttributeError "'LabelEncoder' object has no attribute 'classes_'"),
        {| self := self st;
           effects := effects st ++ [KerasSave m "dna_classifier.h5";
                                     TfjsSave m model_path] |}).
Proof.
  intros Hm Hclasses Hv. split.
  - unfold predict, bind, get_self, lift, ret. rewrite Hm. simpl.
    destruct (forward m _) as [|p v] eqn:Hforward; [done|].
    unfold np_argmax.
    destruct (Np.argmax prob_ltb (p :: v)) as [k|] eqn:Hmax; [|done].
    pose proof (argmax_bound _ _ _ Hmax) as Hk.
    destruct (lookup_lt_is_Some_2 (p :: v) k Hk) as [conf Hconf].
    unfold item. rewrite Hconf.
    unfold inverse_transform. by rewrite Hclasses.
  - unfold save_model, bind, get_self, emit, lift, classes_tolist.
    rewrite Hm. simpl. rewrite Hclasses. by rewrite <- app_assoc.
Qed.

(** X10: when the split and the construction of the network succeed and
    [fit] raises, the exception leaves [train], and what the fit did
    before stays: [self.model] holds the network as the failed fit left
    it, after the summary the effects carry the lines the fit printed
    and the checkpoints it saved to [best_model.h5], in order. The guard
    of [evaluate] no longer fires: the half-trained network is
    evaluated. *)
Theorem train_fit_failure_keeps_model st (X X' : list Np.ndarray)
    (y y' : list Z) (epochs batch_size : Z)
    (X_train X_val : list Np.ndarray) (y_train y_val : list Z)
    (first : Np.ndarray) (built m : keras_model)
    (events : list (string + keras_model)) (e : Train.exn) :
  train_test_split X y = inr (X_train, X_val, y_train, y_val) ->
  X_train !! 0%nat = Some first ->
  build_model (Np.shape first) = inr built ->
  fit built X_train y_train batch_size epochs X_val y_val
  = (events, m, inl e) ->
  exists st',
    train X y epochs batch_size st = (inl e, st')
    /\ model (self st') = Some m
    /\ effects st'
       = effects st ++ [PrintLine "Model architecture:"; KerasSummary built]
         ++ map fit_effect events
    /\ evaluate X' y' st' = (inr (evaluate_net m X' y'), st').
Proof.
  intros Hsplit Hfirst Hbuilt Hfit.
  unfold train, bind, lift, get_self, set_self, emit, emit_all, ret, item.
  rewrite Hsplit, Hfirst, Hbuilt. simpl. rewrite Hfit.
  eexists. split; [reflexivity|]. simpl.
  split; [done|]. split; [by rewrite <- !app_assoc|].
  unfold evaluate, bind, get_self, ret. simpl.
  by destruct (evaluate_net _ X' y').
Qed.

(** Each call keeps the length and the class names, and an instance that
    has no model after the call had none before and wrote no file. *)
Lemma call_invariant st st' :
  call st st' ->
  sequence_length (self st') = sequence_length (self st)
  /\ class_names (self st') = class_names (self st)
  /\ (model (self st') = None ->
      model (self st) = None
      /\ exists added, effects st' = effects st ++ added
                       /\ Forall (fun e => writes_file e = false) added).
Proof.
  destruct 1 as [df st | X y epochs batch_size st | X y st | sequence st
                 | model_path st].
  - rewrite load_unfold. simpl. split; [done|]. split; [done|].
    intros Hnone. split; [done|]. eexists. rewrite <- app_assoc.
    split; [reflexivity|]. by repeat constructor.
  - unfold train, bind, lift, get_self, set_self, emit, emit_all, ret.
    destruct (train_test_split X y) as [e | [[[X_train X_val] y_train] y_val]];
      simpl.
    { split; [done|]. split; [done|]. intros Hnone. split; [done|].
      exists []. by rewrite app_nil_r. }
    destruct (item X_train 0) as [e | first]; simpl.
    { split; [done|]. split; [done|]. intros Hnone. split; [done|].
      exists []. by rewrite app_nil_r. }
    destruct (build_model (Np.shape first)) as [e | built]; simpl.
    { split; [done|]. split; [done|]. intros Hnone. split; [done|].
      exists []. by rewrite app_nil_r. }
    destruct (fit _ _ _ _ _ _ _) as [[events m] result]; simpl.
    by repeat split.
  - unfold evaluate, bind, get_self, raise, ret.
    destruct (model (self st)) as [m|] eqn:Hm; simpl.
    + destruct (evaluate_net m X y). simpl. split; [done|]. split; [done|].
      intros Hnone. congruence.
    + split; [done|]. split; [done|]. intros _. split; [done|].
      exists []. by rewrite app_nil_r.
  - assert (Hsame : (predict sequence st).2 = st).
    { unfold predict, bind, get_self, raise, ret, lift.
      destruct (model (self st)) as [m|]; simpl; [|done].
      repeat (match goal with
              | |- context [match ?x with inl _ => _ | inr _ => _ end] =>
                  destruct x; simpl
              end); done. }
    rewrite Hsame. split; [done|]. split; [done|]. intros Hnone.
    split; [done|]. exists []. by rewrite app_nil_r.
  - unfold save_model, bind, get_self, raise, emit, lift.
    destruct (model (self st)) as [m|] eqn:Hm; simpl.
    + destruct (classes_tolist _); simpl; split; try done;
        split; try done; intros Hnone; congruence.
    + split; [done|]. split; [done|]. intros _. split; [done|].
      exists []. by rewrite app_nil_r.
Qed.

(** X11: whatever methods are called on a new instance, in whatever
    order, the sequence length stays the constructor's argument and the
    class names stay Human, Bacteria, Virus, Plant; and as long as the
    instance has no model no file has been written. *)
Theorem reachable_invariant (L : Z) st :
  reachable L st ->
  sequence_length (self st) = L
  /\ class_names (self st) = ["Human"; "Bacteria"; "Virus"; "Plant"]
  /\ (model (self st) = None ->
      Forall (fun e => writes_file e = false) (effects st)).
Proof.
  unfold reachable. revert st. apply rtc_ind_r.
  - split; [done|]. split; [done|]. intros _. constructor.
  - intros st st' Hrest Hcall IH.
    destruct IH as (HL & Hnames & Hwrites).
    destruct (call_invariant _ _ Hcall) as (HL' & Hnames' & Hnone).
    split; [congruence|]. split; [congruence|].
    intros Hmodel. destruct (Hnone Hmodel) as (Hbefore & added & -> & Hadded).
    apply Forall_app. split; [by apply Hwrites | done].
Qed.

(** Each call keeps the fitted classes sorted, and adds a metadata file
    only as the last file of a bundle made from the instance. *)
Lemma call_metadata st st' :
  call st st' ->
  (forall classes,
     classes_ (label_encoder (self st)) = Some classes ->
     Sorted.StronglySorted string_lt classes) ->
  (forall classes,
     classes_ (label_encoder (self st')) = Some classes ->
     Sorted.StronglySorted string_lt classes)
  /\ exists added,
       effects st' = effects st ++ added
       /\ forall info path,
            JsonDump info path ∈ added ->
            exists m model_path after,
              added = bundle m model_path info ++ after
              /\ path = model_path +:+ "/model_info.json"
              /\ info_class_names info = class_names (self st)
              /\ info_sequence_length info = sequence_length (self st)
              /\ Sorted.StronglySorted string_lt
                   (info_label_encoder_classes info).
Proof.
  intros Hcall Hsorted.
  destruct Hcall as [df st | X y epochs batch_size st | X y st | sequence st
                     | model_path st].
  - rewrite load_unfold. simpl. split.
    + intros classes [= <-]. apply np_unique_sorted.
    + eexists. rewrite <- app_assoc. split; [reflexivity|].
      intros info path Hin. exfalso. simpl in Hin.
      rewrite !elem_of_cons in Hin.
      destruct Hin as [Hin | [Hin | Hin]];
        [done | done | by apply elem_of_nil in Hin].
  - unfold train, bind, lift, get_self, set_self, emit, emit_all, ret.
    destruct (train_test_split X y) as [e | [[[X_train X_val] y_train] y_val]];
      simpl.
    { split; [done|]. exists []. rewrite app_nil_r. split; [done|].
      intros info path Hin. by apply elem_of_nil in Hin. }
    destruct (item X_train 0) as [e | first]; simpl.
    { split; [done|]. exists []. rewrite app_nil_r. split; [done|].
      intros info path Hin. by apply elem_of_nil in Hin. }
    destruct (build_model (Np.shape first)) as [e | built]; simpl.
    { split; [done|]. exists []. rewrite app_nil_r. split; [done|].
      intros info path Hin. by apply elem_of_nil in Hin. }
    destruct (fit _ _ _ _ _ _ _) as [[events m] result]; simpl.
    split; [done|]. eexists. rewrite <- !app_assoc.
    split; [reflexivity|]. intros info path Hin. exfalso.
    simpl in Hin. rewrite !elem_of_cons in Hin.
    destruct Hin as [Hin | [Hin | Hin]]; [done | done |].
    rewrite list_map_fmap in Hin.
    apply list_elem_of_fmap in Hin as ([line | m'] & Hev & _); done.
  - assert (Hsame : (evaluate X y st).2 = st).
    { unfold evaluate, bind, get_self, raise, ret.
      destruct (model (self st)) as [m|]; simpl; [|done].
      by destruct (evaluate_net m X y). }
    rewrite Hsame. split; [done|]. exists []. rewrite app_nil_r.
    split; [done|]. intros info path Hin. by apply elem_of_nil in Hin.
  - assert (Hsame : (predict sequence st).2 = st).
    { unfold predict, bind, get_self, raise, ret, lift.
      destruct (model (self st)) as [m|]; simpl; [|done].
      repeat (match goal with
              | |- context [match ?x with inl _ => _ | inr _ => _ end] =>
                  destruct x; simpl
              end); done. }
    rewrite Hsame. split; [done|]. exists []. rewrite app_nil_r.
    split; [done|]. intros info path Hin. by apply elem_of_nil in Hin.
  - unfold save_model, bind, get_self, raise, emit, lift, classes_tolist.
    destruct (model (self st)) as [m|] eqn:Hm; simpl.
    + destruct (classes_ (label_encoder (self st))) as [classes|] eqn:Hclasses;
        simpl;
        (split; [intros c Hc; apply Hsorted; congruence|]);
        eexists; rewrite <- !app_assoc;
        (split; [reflexivity|]); intros info path Hin; simpl in Hin;
        rewrite !elem_of_cons in Hin.
      * destruct Hin as [Hin | [Hin | [Hin | [Hin | Hin]]]];
          [done | done | | done | by apply elem_of_nil in Hin].
        injection Hin as Hinfo Hpath. subst info path.
        exists m, model_path, [PrintLine ("Model saved to " +:+ model_path)].
        repeat split. simpl. by apply Hsorted.
      * destruct Hin as [Hin | [Hin | Hin]];
          [done | done | by apply elem_of_nil in Hin].
    + split; [done|]. exists []. rewrite app_nil_r. split; [done|].
      intros info path Hin. by apply elem_of_nil in Hin.
Qed.

(** X12: whatever methods are called on a new instance, in whatever
    order, every metadata file written is the last file of a bundle of
    one [save_model] call (the saved network, the export to
    [model_path], then [model_path/model_info.json]), and it holds the
    class names in the constructor's order Human, Bacteria, Virus,
    Plant, the constructor's sequence length, and as
    [label_encoder_classes] a strictly ascending list: the two lists of
    classes in one file are in different orders. *)
Theorem reachable_metadata (L : Z) st (info : model_info) (path : string) :
  reachable L st ->
  JsonDump info path ∈ effects st ->
  info_class_names info = ["Human"; "Bacteria"; "Virus"; "Plant"]
  /\ info_sequence_length info = L
  /\ Sorted.StronglySorted string_lt (info_label_encoder_classes info)
  /\ exists m model_path before after,
       effects st = before ++ bundle m model_path info ++ after
       /\ path = model_path +:+ "/model_info.json".
Proof.
  intros Hreach. revert info path.
  assert (Hinv :
    (forall classes,
       classes_ (label_encoder (self st)) = Some classes ->
       Sorted.StronglySorted string_lt classes)
    /\ forall info path,
         JsonDump info path ∈ effects st ->
         info_class_names info = ["Human"; "Bacteria"; "Virus"; "Plant"]
         /\ info_sequence_length info = L
         /\ Sorted.StronglySorted string_lt (info_label_encoder_classes info)
         /\ exists m model_path before after,
              effects st = before ++ bundle m model_path info ++ after
              /\ path = model_path +:+ "/model_info.json");
    [|exact (proj2 Hinv)].
  assert (Hkept : forall st', rtc call (constructed L) st' ->
            sequence_length (self st') = L
            /\ class_names (self st') = ["Human"; "Bacteria"; "Virus"; "Plant"]).
  { intros st'. revert st'. apply rtc_ind_r; [by split|].
    intros st1 st2 _ Hcall [HL Hnames].
    destruct (call_invariant _ _ Hcall) as (HL' & Hnames' & _).
    split; congruence. }
  unfold reachable in Hreach. revert st Hreach. apply rtc_ind_r.
  - split; [done|]. intros info path Hin. by apply elem_of_nil in Hin.
  - intros st st' Hrest Hcall [Hsorted Hdumps].
    destruct (Hkept st Hrest) as [HL Hnames].
    destruct (call_metadata _ _ Hcall Hsorted) as (Hsorted' & added & Heff & Hadded).
    split; [exact Hsorted'|].
    intros info path Hin. rewrite Heff in Hin.
    apply elem_of_app in Hin as [Hin | Hin].
    + destruct (Hdumps info path Hin)
        as (H1 & H2 & H3 & m & model_path & before & after & Hold & Hpath).
      split; [done|]. split; [done|]. split; [done|].
      exists m, model_path, before, (after ++ added).
      split; [|done]. rewrite Heff, Hold. by rewrite <- !app_assoc.
    + destruct (Hadded info path Hin)
        as (m & model_path & after & -> & Hpath & H1 & H2 & H3).
      split; [congruence|]. split; [congruence|]. split; [done|].
      exists m, model_path, (effects st), after. by rewrite Heff.
Qed.

End PipelineFurther.

(** ** The bootstrap on any directory *)

Section BootstrapFurther.
Context `{Tfjs}.
Implicit Types (w : world) (f : file) (p : string).


(** X15: with a manifest that parses the run writes nothing, whatever
    the weights file is: present, empty or missing, it is only reported,
    so a bundle without usable weights stays without them. *)
Theorem check_and_create_model_keeps_weights w :
  files w !! "models" = None ->
  manifest_ok w = true ->
  (check_and_create_model w).1 = None
  /\ files (check_and_create_model w).2 = files w
  /\ regenerated w (check_and_create_model w).2 = false
  /\ weights_ok "models/weights.bin" (check_and_create_model w).2
     = weights_ok "models/weights.bin" w.
Proof.
  intros Hdir Hok. apply is_file_free in Hdir. unfold manifest_ok in Hok.
  destruct (files w !! "models/model.json") as [[f | n]|] eqn:Hf; [|done..].
  destruct (check_manifest_valid w f Hdir Hf Hok) as (line & -> & Hline).
  simpl. split; [done|]. split; [done|]. split; [|done].
  erewrite regenerated_suffix
    by (simpl; rewrite <- !app_assoc; reflexivity).
  apply bool_decide_eq_false_2. simpl.
  rewrite !not_elem_of_cons. repeat split; try discriminate;
    [by apply not_eq_sym | apply not_elem_of_nil].
Qed.




End BootstrapFurther.

(** ** The further statements at concrete inputs *)

Lemma one_hot_encode_eq_iff_4 :
  let slf := @__init__ keras_constant 4 in
  0 <= sequence_length slf
  /\ (@one_hot_encode_sequence Py.upper_fragment keras_constant slf
        (Py.lit "ac-gt-ttt")
      = @one_hot_encode_sequence Py.upper_fragment keras_constant slf
          (Py.lit "ACGTAAA")
      <-> take (Z.to_nat (sequence_length slf))
               (List.filter in_ATCG
                  (@Py.upper Py.upper_fragment (Py.lit "ac-gt-ttt")))
          = take (Z.to_nat (sequence_length slf))
                 (List.filter in_ATCG
                    (@Py.upper Py.upper_fragment (Py.lit "ACGTAAA")))).
Proof.
  assert (HL : 0 <= @sequence_length keras_constant (__init__ 4))
    by (vm_compute; discriminate).
  split; [exact HL|].
  exact (@one_hot_encode_eq_iff Py.upper_fragment keras_constant (__init__ 4)
           (Py.lit "ac-gt-ttt") (Py.lit "ACGTAAA") HL).
Defined.

Lemma one_hot_encode_truncates_4 :
  let slf := @__init__ keras_constant 4 in
  0 <= sequence_length slf
  /\ sequence_length slf
     <= Py.len (List.filter in_ATCG
                  (@Py.upper Py.upper_fragment (Py.lit "ACGTAC")))
  /\ @one_hot_encode_sequence Py.upper_fragment keras_constant slf
       (Py.lit "ACGTAC" ++ Py.lit "ggg")
     = @one_hot_encode_sequence Py.upper_fragment keras_constant slf
         (Py.lit "ACGTAC").
Proof.
  assert (HL : 0 <= @sequence_length keras_constant (__init__ 4))
    by (vm_compute; discriminate).
  assert (Hlen : @sequence_length keras_constant (__init__ 4)
                 <= Py.len (List.filter in_ATCG
                              (@Py.upper Py.upper_fragment (Py.lit "ACGTAC"))))
    by (vm_compute; discriminate).
  split; [exact HL|]. split; [exact Hlen|].
  exact (@one_hot_encode_truncates Py.upper_fragment keras_constant
           (__init__ 4) (Py.lit "ACGTAC") (Py.lit "ggg") HL Hlen).
Defined.

Lemma one_hot_encode_invalid_only_3 :
  let slf := @__init__ keras_constant 3 in
  Forall (fun c => in_ATCG c = false)
         (@Py.upper Py.upper_fragment (Py.lit "n-x 12"))
  /\ @one_hot_encode_sequence Py.upper_fragment keras_constant slf
       (Py.lit "n-x 12")
     = @one_hot_encode_sequence Py.upper_fragment keras_constant slf []
  /\ Np.tolist (@one_hot_encode_sequence Py.upper_fragment keras_constant slf
                  (Py.lit "n-x 12"))
     = replicate (Z.to_nat (sequence_length slf)) zero_row.
Proof.
  assert (Hbad : Forall (fun c => in_ATCG c = false)
                        (@Py.upper Py.upper_fragment (Py.lit "n-x 12")))
    by (vm_compute; repeat constructor).
  split; [exact Hbad|].
  exact (@one_hot_encode_invalid_only Py.upper_fragment keras_constant
           (__init__ 3) (Py.lit "n-x 12") Hbad).
Defined.

Lemma one_hot_encode_negative_length_2 :
  let slf := @__init__ keras_constant (-2) in
  sequence_length slf < 0
  /\ Np.tolist (@one_hot_encode_sequence Py.upper_fragment keras_constant slf
                  (Py.lit "acgta"))
     = map encode_base
         (take (Z.to_nat (Py.len (List.filter in_ATCG
                                    (@Py.upper Py.upper_fragment
                                       (Py.lit "acgta")))
                          + sequence_length slf))
               (List.filter in_ATCG
                  (@Py.upper Py.upper_fragment (Py.lit "acgta"))))
  /\ Forall (fun row => row ∈ basis_rows)
            (Np.tolist (@one_hot_encode_sequence Py.upper_fragment
                          keras_constant slf (Py.lit "acgta"))).
Proof.
  assert (HL : @sequence_length keras_constant (__init__ (-2)) < 0)
    by (vm_compute; reflexivity).
  split; [exact HL|].
  exact (@one_hot_encode_negative_length Py.upper_fragment keras_constant
           (__init__ (-2)) (Py.lit "acgta") HL).
Defined.

Lemma load_labels_round_trip_four_rows :
  four_rows !! 2%nat = Some (Py.lit "GGNNCC", "Virus")
  /\ exists X y st' k,
       @load_and_preprocess_data Py.upper_fragment keras_constant
         four_rows fresh_state = (inr (X, y), st')
       /\ X !! 2%nat
          = Some (@one_hot_encode_sequence Py.upper_fragment keras_constant
                    (self fresh_state) (Py.lit "GGNNCC"))
       /\ y !! 2%nat = Some (Z.of_nat k)
       /\ inverse_transform (label_encoder (self st')) k = inr "Virus".
Proof.
  split; [reflexivity|].
  exact (@load_labels_round_trip Py.upper_fragment keras_constant
           four_rows fresh_state 2 (Py.lit "GGNNCC") "Virus" eq_refl).
Defined.

Lemma predict_class_differs_trained :
  model (self trained_state)
  = Some ([700; 100; 150; 50] : @keras_model keras_constant)
  /\ class_names (self trained_state) = ["Human"; "Bacteria"; "Virus"; "Plant"]
  /\ label_encoder (self trained_state)
     = (fit_transform ["Human"; "Bacteria"; "Virus"; "Plant"]).1
  /\ exists (r : @prediction keras_constant) k name,
       @predict Py.upper_fragment keras_constant (Py.lit "ACGT") trained_state
       = (inr r, trained_state)
       /\ Np.argmax Z.ltb [700; 100; 150; 50] = Some k
       /\ all_probabilities r !! k = Some (name, confidence r)
       /\ class r <> name.
Proof.
  split; [reflexivity|]. split; [reflexivity|]. split; [reflexivity|].
  exact (@predict_class_differs_from_top_key Py.upper_fragment keras_constant
           trained_state [700; 100; 150; 50]
           ["Human"; "Bacteria"; "Virus"; "Plant"] (Py.lit "ACGT")
           700 100 150 50 eq_refl eq_refl eq_refl
           (fun l => iff_refl _) eq_refl).
Defined.

Lemma predict_score_count_five_scores :
  (model (self (replaced_model_state [700; 100; 150; 50; 10]))
   = Some ([700; 100; 150; 50; 10] : @keras_model keras_constant)
   /\ classes_ (label_encoder (self (replaced_model_state
                                       [700; 100; 150; 50; 10])))
      = Some ["Bacteria"; "Human"; "Plant"; "Virus"]
   /\ Np.argmax Z.ltb [700; 100; 150; 50; 10] = Some 0%nat
   /\ @predict Py.upper_fragment keras_constant (Py.lit "ACGT")
        (replaced_model_state [700; 100; 150; 50; 10])
      = (inl IndexError, replaced_model_state [700; 100; 150; 50; 10]))
  /\ (Np.argmax Z.ltb [10; 100; 150; 50; 700] = Some 4%nat
      /\ @predict Py.upper_fragment keras_constant (Py.lit "ACGT")
           (replaced_model_state [10; 100; 150; 50; 700])
         = (inl (ValueError "y contains previously unseen labels"),
            replaced_model_state [10; 100; 150; 50; 700])).
Proof.
  split.
  - split; [reflexivity|]. split; [reflexivity|]. split; [reflexivity|].
    destruct (@predict_score_count Py.upper_fragment keras_constant
                (replaced_model_state [700; 100; 150; 50; 10])
                [700; 100; 150; 50; 10] (Py.lit "ACGT")
                [700; 100; 150; 50; 10] 0%nat
                ["Bacteria"; "Human"; "Plant"; "Virus"]
                eq_refl eq_refl eq_refl eq_refl eq_refl)
      as (_ & _ & Hmany).
    apply (Hmany "Bacteria"); [reflexivity | simpl; lia].
  - split; [reflexivity|].
    destruct (@predict_score_count Py.upper_fragment keras_constant
                (replaced_model_state [10; 100; 150; 50; 700])
                [10; 100; 150; 50; 700] (Py.lit "ACGT")
                [10; 100; 150; 50; 700] 4%nat
                ["Bacteria"; "Human"; "Plant"; "Virus"]
                eq_refl eq_refl eq_refl eq_refl eq_refl)
      as (Hunseen & _).
    apply Hunseen. reflexivity.
Defined.

Lemma unfitted_encoder_failures_unloaded :
  model (self trained_unloaded_state)
  = Some ([700; 100; 150; 50] : @keras_model keras_constant)
  /\ classes_ (label_encoder (self trained_unloaded_state)) = None
  /\ @predict Py.upper_fragment keras_constant (Py.lit "ACGT")
       trained_unloaded_state
     = (inl NotFittedError, trained_unloaded_state)
  /\ @save_model keras_constant "models/" trained_unloaded_state
     = (inl (AttributeError "'LabelEncoder' object has no attribute 'classes_'"),
        {| self := self trained_unloaded_state;
           effects := effects trained_unloaded_state
                      ++ [KerasSave ([700; 100; 150; 50]
                                     : @keras_model keras_constant)
                                    "dna_classifier.h5";
                          TfjsSave ([700; 100; 150; 50]
                                    : @keras_model keras_constant)
                                   "models/"] |}).
Proof.
  split; [reflexivity|]. split; [reflexivity|].
  exact (@unfitted_encoder_failures Py.upper_fragment keras_constant
           trained_unloaded_state [700; 100; 150; 50] (Py.lit "ACGT")
           "models/" eq_refl eq_refl ltac:(discriminate)).
Defined.

Lemma train_fit_failure_twenty_rows :
  let st :=
    (@load_and_preprocess_data Py.upper_fragment keras_failing_fit
       twenty_rows (@constructed keras_failing_fit 100)).2 in
  let X := twenty_samples in
  let y := twenty_labels in
  let built : @keras_model keras_failing_fit := [250; 250; 250; 250] in
  let m : @keras_model keras_failing_fit := [550; 150; 200; 100] in
  (@load_and_preprocess_data Py.upper_fragment keras_failing_fit
     twenty_rows (@constructed keras_failing_fit 100)).1 = inr (X, y)
  /\ @train_test_split keras_failing_fit X y
     = inr (drop 4 X, take 4 X, drop 4 y, take 4 y)
  /\ y = [1; 0; 3; 2; 1; 0; 3; 2; 1; 0; 3; 2; 1; 0; 3; 2; 1; 0; 3; 2]
  /\ Np.shape <$> drop 4 X !! 0%nat = Some [100; 4]
  /\ @build_model keras_failing_fit [100; 4] = inr built
  /\ exists st',
       @train keras_failing_fit X y 50 32 st
       = (inl (ValueError "fit failed"), st')
       /\ model (self st') = Some m
       /\ effects st'
          = effects st
            ++ [PrintLine "Model architecture:"; KerasSummary built]
            ++ [PrintLine "Epoch 1/50";
                KerasSave ([400; 200; 250; 150]
                           : @keras_model keras_failing_fit)
                          "best_model.h5";
                PrintLine "Epoch 2/50"]
       /\ @evaluate keras_failing_fit X y st'
          = (inr (@evaluate_net keras_failing_fit m X y), st').
Proof.
  intros st X y built m.
  split; [vm_compute; reflexivity|]. split; [vm_compute; reflexivity|].
  split; [vm_compute; reflexivity|]. split; [vm_compute; reflexivity|].
  split; [reflexivity|].
  refine (@train_fit_failure_keeps_model
            keras_failing_fit st X X y y 50 32
            (drop 4 X) (take 4 X) (drop 4 y) (take 4 y)
            (@one_hot_encode_sequence Py.upper_fragment keras_failing_fit
               (__init__ 100) (Py.lit "ACGTACGT"))
            built m
            [inl "Epoch 1/50"; inr [400; 200; 250; 150]; inl "Epoch 2/50"]
            (ValueError "fit failed") _ _ _ _);
    vm_compute; reflexivity.
Defined.

Lemma reachable_metadata_twenty_rows :
  let st1 :=
    (@load_and_preprocess_data Py.upper_fragment keras_fitting
       twenty_rows (constructed 100)).2 in
  let st2 := (@train keras_fitting twenty_samples twenty_labels 50 32 st1).2 in
  let st := (@save_model keras_fitting "models/" st2).2 in
  let info :=
    {| info_class_names := ["Human"; "Bacteria"; "Virus"; "Plant"];
       info_sequence_length := 100;
       info_label_encoder_classes := ["Bacteria"; "Human"; "Plant"; "Virus"] |} in
  let path := "models//model_info.json" in
  @reachable Py.upper_fragment keras_fitting 100 st
  /\ @JsonDump keras_fitting info path ∈ effects st
  /\ info_class_names info = ["Human"; "Bacteria"; "Virus"; "Plant"]
  /\ info_sequence_length info = 100
  /\ Sorted.StronglySorted string_lt (info_label_encoder_classes info)
  /\ exists (m : @keras_model keras_fitting) model_path before after,
       effects st = before ++ bundle m model_path info ++ after
       /\ path = model_path +:+ "/model_info.json".
Proof.
  intros st1 st2 st info path.
  assert (Hreach : @reachable Py.upper_fragment keras_fitting 100 st).
  { eapply rtc_l; [apply (call_load twenty_rows)|].
    eapply rtc_l; [apply (call_train twenty_samples twenty_labels 50 32)|].
    apply rtc_once, call_save_model. }
  assert (Hin : @JsonDump keras_fitting info path ∈ effects st)
    by (apply (list_elem_of_lookup_2 _ 10%nat); vm_compute; reflexivity).
  split; [exact Hreach|]. split; [exact Hin|].
  exact (@reachable_metadata Py.upper_fragment keras_fitting 100 st info path
           Hreach Hin).
Defined.

Lemma reachable_invariant_loaded :
  let st := (@load_and_preprocess_data Py.upper_fragment keras_constant
               four_rows (constructed 1000)).2 in
  @reachable Py.upper_fragment keras_constant 1000 st
  /\ sequence_length (self st) = 1000
  /\ class_names (self st) = ["Human"; "Bacteria"; "Virus"; "Plant"]
  /\ (model (self st) = None ->
      Forall (fun e => writes_file e = false) (effects st)).
Proof.
  assert (Hreach : @reachable Py.upper_fragment keras_constant 1000
                     (@load_and_preprocess_data Py.upper_fragment
                        keras_constant four_rows (constructed 1000)).2)
    by (apply rtc_once, call_load).
  split; [exact Hreach|].
  exact (@reachable_invariant Py.upper_fragment keras_constant 1000 _ Hreach).
Defined.


Lemma check_and_create_model_keeps_missing_weights :
  let w := missing_weights_world in
  files w !! "models" = None
  /\ manifest_ok w = true
  /\ (@check_and_create_model tfjs_weights_bin w).1 = None
  /\ files (@check_and_create_model tfjs_weights_bin w).2 = files w
  /\ regenerated w (@check_and_create_model tfjs_weights_bin w).2 = false
  /\ weights_ok "models/weights.bin" (@check_and_create_model tfjs_weights_bin w).2
     = weights_ok "models/weights.bin" w.
Proof.
  assert (Hdir : files missing_weights_world !! "models" = None)
    by (vm_compute; reflexivity).
  assert (Hok : manifest_ok missing_weights_world = true)
    by (vm_compute; reflexivity).
  split; [exact Hdir|]. split; [exact Hok|].
  exact (@check_and_create_model_keeps_weights tfjs_weights_bin
           missing_weights_world Hdir Hok).
Defined.


